(** * PerfMap: the perf map writer of the runtime (src/vm/perfmap.cpp)

    A shallow embedding of [PerfMap] and [NativeImagePerfMap]: the live
    per-process map written while methods are jitted and stubs are generated,
    and the offline map written for a precompiled image.  Objects are
    records, the two statics of [PerfMap] live in a [Runtime] record, every
    member function is a function from the state before to the state after,
    and the lines are built as strings the way the [Printf] calls build
    them. *)

From Stdlib Require Import ZArith List Bool String Ascii Lia Sorted FinFun.
From Stdlib Require Import Hexadecimal HexadecimalString HexadecimalN.
From Stdlib Require Import Decimal DecimalString DecimalZ.
Import ListNotations.

#[local] Open Scope string_scope.
#[local] Open Scope Z_scope.

(** ** Conversions of the printf family *)

Module Fmt.

(** The value a 32-bit conversion reads from an argument. *)
Definition u32 (v : Z) : Z := v mod 2 ^ 32.

(** The same 32 bits read as an [int]. *)
Definition i32 (v : Z) : Z :=
  if u32 v <? 2 ^ 31 then u32 v else u32 v - 2 ^ 32.

(** Lower-case hexadecimal digits of a natural number, no prefix. *)
Definition hex (v : Z) : string :=
  HexadecimalString.NilZero.string_of_uint (N.to_hex_uint (Z.to_N v)).

(** Decimal digits of an integer, with a sign when negative. *)
Definition dec (v : Z) : string :=
  DecimalString.NilZero.string_of_int (Z.to_int v).

Fixpoint zeros (n : nat) : string :=
  match n with
  | O => ""
  | S n' => String "0" (zeros n')
  end.

(** ["%x"]: an [unsigned int] in hexadecimal. *)
Definition x (v : Z) : string := hex (u32 v).

(** ["%08x"]: the same, padded with zeros to eight digits. *)
Definition x08 (v : Z) : string :=
  let s := hex (u32 v) in zeros (8 - String.length s) ++ s.

(** ["%d"]: an [int] in decimal. *)
Definition d (v : Z) : string := dec (i32 v).

End Fmt.

(** ** What the build and the platform fix

    [perfmap.cpp] is compiled under [CROSSGEN_COMPILE] or not, and under
    [FEATURE_PREJIT] or not; pointers have [PTR_BITS] bits.  The text the
    platform's formatter prints for ["%p"], the text it prints for a null
    ["%s"] argument, and [StringFromGUID2] belong to the platform layer and
    are taken as they come. *)

Record Build : Type := {
  CROSSGEN_COMPILE : bool;
  FEATURE_PREJIT : bool;
  PTR_BITS : Z;
  fmt_p : Z -> string;
  fmt_null_s : string;
  StringFromGUID2 : Z -> option string
}.

(** [FMT_CODE_ADDR]: ["%08x"] under [CROSSGEN_COMPILE], ["%p"] otherwise. *)
Definition FMT_CODE_ADDR (B : Build) (pCode : Z) : string :=
  if CROSSGEN_COMPILE B then Fmt.x08 pCode else fmt_p B pCode.

(** ["%s"] applied to a [const char *] that may be null. *)
Definition fmt_s (B : Build) (s : option string) : string :=
  match s with
  | Some str => str
  | None => fmt_null_s B
  end.

(** Unsigned arithmetic on [SIZE_T] and [PCODE]. *)
Definition ptr_sub (B : Build) (a b : Z) : Z := (a - b) mod 2 ^ PTR_BITS B.

(** ** Collaborators *)

(** [CFileStream]: [fs_data] is what the file holds; [fs_accept] is how many
    bytes the platform layer will take at each of the coming [Write] calls,
    one number per call, and every call after the list is used up is taken
    whole. *)
Record CFileStream : Type := {
  fs_path : string;
  fs_data : string;
  fs_accept : list nat
}.

(** [CFileStream::Write(buf, inCount, &outCount)]: the stream after the
    call, and [outCount]. *)
Definition CFileStream_Write (s : CFileStream) (buf : string) (inCount : nat)
  : CFileStream * nat :=
  let outCount :=
    match fs_accept s with
    | [] => inCount
    | k :: _ => Nat.min k inCount
    end in
  ({| fs_path := fs_path s;
      fs_data := fs_data s ++ substring 0 outCount buf;
      fs_accept := tl (fs_accept s) |},
   outCount).

(** [PEFile]: the path of the image and its MVID. *)
Record PEFile : Type := {
  pe_path : string;
  GetMVID : Z
}.

(** Modelled from the spec: the class [PerfInfo] (perfinfo.cpp) is the
    auxiliary image-signature recorder, "a secondary, cooperating writer that
    records one entry per loaded module, keyed by a derived stable
    identifier", with a file and a lifecycle of its own.  It is kept as the
    process id it was built for and the entries it was handed. *)
Record PerfInfo : Type := {
  pi_pid : Z;
  pi_images : list (string * string)
}.

Definition new_PerfInfo (pid : Z) : PerfInfo :=
  {| pi_pid := pid; pi_images := [] |}.

Definition PerfInfo_LogImage (p : PerfInfo) (pFile : PEFile) (sig : string)
  : PerfInfo :=
  {| pi_pid := pi_pid p; pi_images := pi_images p ++ [(pe_path pFile, sig)] |}.

(** [MethodDesc]: [GetFullMethodInfo] fills in the signature text, or
    throws ([None]). *)
Record MethodDesc : Type := {
  GetFullMethodInfo : option string
}.

(** [PrepareCodeConfig]: the text [GetJitOptimizationTierStr] returns for the
    method being prepared, null when there is none. *)
Record PrepareCodeConfig : Type := {
  GetJitOptimizationTierStr : option string
}.

(** ** The map object *)

(** Modelled from the spec: the declaration of the class (perfmap.h) is not
    among the sources.  The fields are the four the member functions use:
    two pointers that may be null, the error flag, and the stub counter, "an
    unsigned integer" of the width of the ["%d"] it is printed with, kept
    as a Z below [2 ^ 32]. *)
Record PerfMap : Type := {
  m_FileStream : option CFileStream;
  m_PerfInfo : option PerfInfo;
  m_ErrorEncountered : bool;
  m_StubsMapped : Z
}.

Definition set_FileStream (this : PerfMap) (f : option CFileStream) : PerfMap :=
  {| m_FileStream := f;
     m_PerfInfo := m_PerfInfo this;
     m_ErrorEncountered := m_ErrorEncountered this;
     m_StubsMapped := m_StubsMapped this |}.

Definition set_PerfInfo (this : PerfMap) (p : option PerfInfo) : PerfMap :=
  {| m_FileStream := m_FileStream this;
     m_PerfInfo := p;
     m_ErrorEncountered := m_ErrorEncountered this;
     m_StubsMapped := m_StubsMapped this |}.

Definition set_ErrorEncountered (this : PerfMap) (b : bool) : PerfMap :=
  {| m_FileStream := m_FileStream this;
     m_PerfInfo := m_PerfInfo this;
     m_ErrorEncountered := b;
     m_StubsMapped := m_StubsMapped this |}.

Definition set_StubsMapped (this : PerfMap) (n : Z) : PerfMap :=
  {| m_FileStream := m_FileStream this;
     m_PerfInfo := m_PerfInfo this;
     m_ErrorEncountered := m_ErrorEncountered this;
     m_StubsMapped := n |}.

(** The line terminator. *)
Definition LF : string := String "010" "".

(** What the file of a map holds; nothing when there is no stream. *)
Definition map_text (this : PerfMap) : string :=
  match m_FileStream this with
  | Some s => fs_data s
  | None => ""
  end.

(** [PerfMap::WriteLine].  The callers have checked [m_FileStream]; the
    function itself tests nothing before it writes. *)
Definition WriteLine (this : PerfMap) (line : string) : PerfMap :=
  match m_FileStream this with
  | None => this
  | Some s =>
      let inCount := String.length line in
      let '(s', outCount) := CFileStream_Write s line inCount in
      let this := set_FileStream this (Some s') in
      if negb (Nat.eqb inCount outCount)
      then set_ErrorEncountered this true
      else this
  end.

(** The line [PerfMap::LogMethod] builds from the signature it was given:
    the [Printf], then the tier in brackets or the bare line end. *)
Definition method_line (B : Build) (show_tiers : bool) (pCode codeSize : Z)
    (fullMethodSignature : string) (optimizationTier : option string) : string :=
  let line := FMT_CODE_ADDR B pCode ++ " " ++ Fmt.x codeSize ++ " "
              ++ fullMethodSignature in
  match optimizationTier, show_tiers with
  | Some tier, true => line ++ "[" ++ tier ++ "]" ++ LF
  | _, _ => line ++ LF
  end.

Definition is_null {A : Type} (p : option A) : bool :=
  match p with
  | None => true
  | Some _ => false
  end.

(** [PerfMap::LogMethod]; [show_tiers] is the static
    [s_ShowOptimizationTiers].  An exception of [GetFullMethodInfo] is
    swallowed and the call ends there. *)
Definition LogMethod (B : Build) (show_tiers : bool) (this : PerfMap)
    (pMethod : MethodDesc) (pCode codeSize : Z)
    (optimizationTier : option string) : PerfMap :=
  if is_null (m_FileStream this) || m_ErrorEncountered this
  then this
  else
    match GetFullMethodInfo pMethod with
    | None => this
    | Some fullMethodSignature =>
        WriteLine this
          (method_line B show_tiers pCode codeSize fullMethodSignature
             optimizationTier)
    end.

(** [PerfMap::GetNativeImageSignature]: the MVID as text, the empty string
    when [StringFromGUID2] fails. *)
Definition GetNativeImageSignature (B : Build) (pFile : PEFile) : string :=
  match StringFromGUID2 B (GetMVID pFile) with
  | Some sig => sig
  | None => ""
  end.

(** How a call ends: it returns, or it stops at an access violation, a
    member called through a null pointer; either way with the state it had
    reached. *)
Inductive Outcome (A : Type) : Type :=
| Returns (a : A)
| Faults (a : A).

Arguments Returns {A} a.
Arguments Faults {A} a.

Definition final_state {A : Type} (o : Outcome A) : A :=
  match o with
  | Returns a => a
  | Faults a => a
  end.

Definition returns {A : Type} (o : Outcome A) : Prop :=
  match o with
  | Returns _ => True
  | Faults _ => False
  end.

(** [PerfMap::LogImage].  Past the guard the recorder is called through
    [m_PerfInfo] without a test: with a null recorder the call faults. *)
Definition LogImage (B : Build) (this : PerfMap) (pFile : PEFile)
  : Outcome PerfMap :=
  if is_null (m_FileStream this) || m_ErrorEncountered this
  then Returns this
  else
    let wszSignature := GetNativeImageSignature B pFile in
    match m_PerfInfo this with
    | Some p =>
        Returns
          (set_PerfInfo this (Some (PerfInfo_LogImage p pFile wszSignature)))
    | None => Faults this
    end.

(** ** Construction *)

(** What the process gives the constructors: the process id, the temporary
    directory ([None] when [GetTempPathW] returns 0), whether
    [new (nothrow) CFileStream] yields an object, what [OpenForWrite] does
    with a path ([None] for a failed HRESULT, otherwise the truncated file
    with the byte counts its coming writes will take), and the content of
    the storage [operator new] hands out for a [PerfMap]. *)
Record Host : Type := {
  GetCurrentProcessId : Z;
  GetTempPathW : option string;
  new_CFileStream : bool;
  OpenForWrite : string -> option (list nat);
  operator_new : PerfMap
}.

(** [PerfMap::OpenFile]. *)
Definition OpenFile (H : Host) (this : PerfMap) (path : string) : PerfMap :=
  if new_CFileStream H then
    match OpenForWrite H path with
    | Some acc =>
        set_FileStream this
          (Some {| fs_path := path; fs_data := ""; fs_accept := acc |})
    | None => set_FileStream this None
    end
  else set_FileStream this None.

(** [PerfMap::PerfMap(int pid)].  The constructor has no initializer list:
    it assigns [m_ErrorEncountered] and [m_StubsMapped], and the other two
    fields only on the path past [GetTempPathW]; a field it does not assign
    keeps what the storage held. *)
Definition PerfMap_pid (H : Host) (pid : Z) : PerfMap :=
  let this := operator_new H in
  let this := set_ErrorEncountered this false in
  let this := set_StubsMapped this 0 in
  match GetTempPathW H with
  | None => this
  | Some tempPath =>
      let path := tempPath ++ "perf-" ++ Fmt.d pid ++ ".map" in
      let this := OpenFile H this path in
      set_PerfInfo this (Some (new_PerfInfo pid))
  end.

(** [PerfMap::PerfMap()]: the initializer list sets both pointers to null,
    the body sets the other two fields. *)
Definition PerfMap_default (H : Host) : PerfMap :=
  let this := operator_new H in
  let this := set_FileStream this None in
  let this := set_PerfInfo this None in
  let this := set_ErrorEncountered this false in
  set_StubsMapped this 0.

(** ** The statics and the entry points *)

(** The configuration values [Initialize] reads. *)
Record CLRConfig : Type := {
  EXTERNAL_PerfMapEnabled : Z;
  EXTERNAL_PerfMapIgnoreSignal : Z;
  EXTERNAL_PerfMapShowOptimizationTiers : Z
}.

(** [s_Current] and [s_ShowOptimizationTiers], with what leaves the class:
    the signals handed to [PAL_IgnoreProfileSignal], and the streams and
    recorders the destructor has closed. *)
Record Runtime : Type := {
  s_Current : option PerfMap;
  s_ShowOptimizationTiers : bool;
  ignored_signals : list Z;
  closed_streams : list CFileStream;
  closed_infos : list PerfInfo
}.

(** The statics as the file initializes them. *)
Definition startup : Runtime :=
  {| s_Current := None;
     s_ShowOptimizationTiers := false;
     ignored_signals := [];
     closed_streams := [];
     closed_infos := [] |}.

Definition set_Current (rt : Runtime) (c : option PerfMap) : Runtime :=
  {| s_Current := c;
     s_ShowOptimizationTiers := s_ShowOptimizationTiers rt;
     ignored_signals := ignored_signals rt;
     closed_streams := closed_streams rt;
     closed_infos := closed_infos rt |}.

(** [PerfMap::Initialize].  The process id is kept in an [int]. *)
Definition Initialize (H : Host) (cfg : CLRConfig) (rt : Runtime) : Runtime :=
  if negb (EXTERNAL_PerfMapEnabled cfg =? 0) then
    let currentPid := Fmt.i32 (GetCurrentProcessId H) in
    let cur := PerfMap_pid H currentPid in
    let signalNum := Fmt.i32 (EXTERNAL_PerfMapIgnoreSignal cfg) in
    {| s_Current := Some cur;
       s_ShowOptimizationTiers :=
         if negb (EXTERNAL_PerfMapShowOptimizationTiers cfg =? 0) then true
         else s_ShowOptimizationTiers rt;
       ignored_signals :=
         if 0 <? signalNum then ignored_signals rt ++ [signalNum]
         else ignored_signals rt;
       closed_streams := closed_streams rt;
       closed_infos := closed_infos rt |}
  else rt.

Definition opt_list {A : Type} (p : option A) : list A :=
  match p with
  | Some a => [a]
  | None => []
  end.

(** [PerfMap::Destroy], with [~PerfMap] inlined: both members are deleted
    and the static is reset. *)
Definition Destroy (rt : Runtime) : Runtime :=
  match s_Current rt with
  | Some cur =>
      {| s_Current := None;
         s_ShowOptimizationTiers := s_ShowOptimizationTiers rt;
         ignored_signals := ignored_signals rt;
         closed_streams := closed_streams rt ++ opt_list (m_FileStream cur);
         closed_infos := closed_infos rt ++ opt_list (m_PerfInfo cur) |}
  | None => rt
  end.

(** [PerfMap::LogImageLoad]. *)
Definition LogImageLoad (B : Build) (rt : Runtime) (pFile : PEFile)
  : Outcome Runtime :=
  match s_Current rt with
  | Some cur =>
      match LogImage B cur pFile with
      | Returns cur' => Returns (set_Current rt (Some cur'))
      | Faults cur' => Faults (set_Current rt (Some cur'))
      end
  | None => Returns rt
  end.

(** [PerfMap::LogJITCompiledMethod]. *)
Definition LogJITCompiledMethod (B : Build) (rt : Runtime)
    (pMethod : MethodDesc) (pCode codeSize : Z) (pConfig : PrepareCodeConfig)
  : Runtime :=
  match s_Current rt with
  | None => rt
  | Some cur =>
      let optimizationTier :=
        if negb (CROSSGEN_COMPILE B) && s_ShowOptimizationTiers rt
        then GetJitOptimizationTierStr pConfig
        else None in
      set_Current rt
        (Some (LogMethod B (s_ShowOptimizationTiers rt) cur pMethod pCode
                 codeSize optimizationTier))
  end.

(** The two tests at the head of the [EX_TRY] block of [LogStubs]: both
    assign [stubOwner]. *)
Definition stub_defaults (stubType stubOwner : option string)
  : option string * option string :=
  let stubOwner := if is_null stubOwner then Some "?" else stubOwner in
  let stubOwner := if is_null stubType then Some "?" else stubOwner in
  (stubType, stubOwner).

(** The line of [LogStubs], [n] being the value of [++m_StubsMapped]. *)
Definition stub_line (B : Build) (pCode codeSize n : Z)
    (stubType stubOwner : option string) : string :=
  FMT_CODE_ADDR B pCode ++ " " ++ Fmt.x codeSize ++ " stub<" ++ Fmt.d n
  ++ "> " ++ fmt_s B stubType ++ "<" ++ fmt_s B stubOwner ++ ">" ++ LF.

(** [PerfMap::LogStubs].  The guard looks at [s_Current] and at its stream,
    and at nothing else. *)
Definition LogStubs (B : Build) (rt : Runtime)
    (stubType stubOwner : option string) (pCode codeSize : Z) : Runtime :=
  match s_Current rt with
  | None => rt
  | Some cur =>
      if is_null (m_FileStream cur) then rt
      else
        let '(stubType, stubOwner) := stub_defaults stubType stubOwner in
        let n := Fmt.u32 (m_StubsMapped cur + 1) in
        let cur := set_StubsMapped cur n in
        let line := stub_line B pCode codeSize n stubType stubOwner in
        set_Current rt (Some (WriteLine cur line))
  end.

(** ** The map of a precompiled image *)

(** [Assembly]: its simple name and its manifest file. *)
Record Assembly : Type := {
  GetSimpleName : string;
  GetManifestFile : PEFile
}.

(** [IJitManager::MethodRegionInfo]. *)
Record MethodRegionInfo : Type := {
  hotStartAddress : Z;
  hotSize : Z;
  coldStartAddress : Z;
  coldSize : Z
}.

(** What [LogDataForModule] asks of a [Module]: the base of the loaded
    layout, whether it has a ReadyToRun header, and the (method, start
    address) pairs the two iterators yield, in their order. *)
Record LoadedModule : Type := {
  GetBase : Z;
  HasReadyToRunHeader : bool;
  MethodIterator : list (MethodDesc * Z);
  ReadyToRunInfo_MethodIterator : list (MethodDesc * Z)
}.

(** The path [NativeImagePerfMap::NativeImagePerfMap] prints into
    [sDestPerfMapPath]. *)
Definition sDestPerfMapPath (B : Build) (pAssembly : Assembly)
    (pDestPath : string) : string :=
  let lpcSimpleName := GetSimpleName pAssembly in
  let wszSignature := GetNativeImageSignature B (GetManifestFile pAssembly) in
  pDestPath ++ lpcSimpleName ++ ".ni." ++ wszSignature ++ ".map".

(** [NativeImagePerfMap::NativeImagePerfMap]. *)
Definition NativeImagePerfMap (B : Build) (H : Host) (pAssembly : Assembly)
    (pDestPath : string) : PerfMap :=
  let this := PerfMap_default H in
  OpenFile H this (sDestPerfMapPath B pAssembly pDestPath).

(** [NativeImagePerfMap::LogPreCompiledMethod]; [codeInfo] is what
    [EECodeInfo] finds for a start address. *)
Definition LogPreCompiledMethod (B : Build) (show_tiers : bool)
    (codeInfo : Z -> MethodRegionInfo) (this : PerfMap) (pMethod : MethodDesc)
    (pCode baseAddr : Z) (optimizationTier : option string) : PerfMap :=
  let methodRegionInfo := codeInfo pCode in
  let this :=
    if 0 <? hotSize methodRegionInfo
    then LogMethod B show_tiers this pMethod
           (ptr_sub B (hotStartAddress methodRegionInfo) baseAddr)
           (hotSize methodRegionInfo) optimizationTier
    else this in
  if 0 <? coldSize methodRegionInfo
  then LogMethod B show_tiers this pMethod
         (ptr_sub B (coldStartAddress methodRegionInfo) baseAddr)
         (coldSize methodRegionInfo) optimizationTier
  else this.

(** One pass of either [while (mi.Next())] loop. *)
Definition log_methods (B : Build) (show_tiers : bool)
    (codeInfo : Z -> MethodRegionInfo) (baseAddr : Z)
    (optimizationTier : option string) (mi : list (MethodDesc * Z))
    (this : PerfMap) : PerfMap :=
  fold_left
    (fun this m =>
       LogPreCompiledMethod B show_tiers codeInfo this (fst m) (snd m)
         baseAddr optimizationTier)
    mi this.

(** [NativeImagePerfMap::LogDataForModule]. *)
Definition LogDataForModule (B : Build) (show_tiers : bool)
    (codeInfo : Z -> MethodRegionInfo) (this : PerfMap)
    (pModule : LoadedModule) : PerfMap :=
  let baseAddr := GetBase pModule in
  if FEATURE_PREJIT B && negb (HasReadyToRunHeader pModule)
  then log_methods B show_tiers codeInfo baseAddr None
         (MethodIterator pModule) this
  else log_methods B show_tiers codeInfo baseAddr (Some "ReadyToRun")
         (ReadyToRunInfo_MethodIterator pModule) this.

(** ** Observations *)

(** The map entry of the specification: what one line stands for. *)
Record MapEntry : Type := {
  code_address : Z;
  code_size : Z;
  label : string;
  tier_tag : option string
}.

(** The line of an entry. *)
Definition render (B : Build) (show_tiers : bool) (e : MapEntry) : string :=
  method_line B show_tiers (code_address e) (code_size e) (label e)
    (tier_tag e).

(** The text of a list of lines. *)
Fixpoint lines_text (l : list string) : string :=
  match l with
  | [] => ""
  | ln :: l' => ln ++ lines_text l'
  end.

Definition label_of (pMethod : MethodDesc) : string :=
  match GetFullMethodInfo pMethod with
  | Some sig => sig
  | None => ""
  end.

(** The entries [LogPreCompiledMethod] hands to [LogMethod] for one
    (method, start address) pair, in the order of the two calls. *)
Definition logged_entries (B : Build) (codeInfo : Z -> MethodRegionInfo)
    (baseAddr : Z) (optimizationTier : option string) (m : MethodDesc * Z)
  : list MapEntry :=
  let info := codeInfo (snd m) in
  (if 0 <? hotSize info
   then [{| code_address := ptr_sub B (hotStartAddress info) baseAddr;
            code_size := hotSize info;
            label := label_of (fst m);
            tier_tag := optimizationTier |}]
   else [])
  ++
  (if 0 <? coldSize info
   then [{| code_address := ptr_sub B (coldStartAddress info) baseAddr;
            code_size := coldSize info;
            label := label_of (fst m);
            tier_tag := optimizationTier |}]
   else []).

(** The entries the specification asks for: one per region of positive
    size, hot before cold, at the region's start minus the load base. *)
Definition region_entries (info : MethodRegionInfo) (base : Z)
    (lbl : string) (tag : option string) : list MapEntry :=
  (if 0 <? hotSize info
   then [{| code_address := hotStartAddress info - base;
            code_size := hotSize info; label := lbl; tier_tag := tag |}]
   else [])
  ++
  (if 0 <? coldSize info
   then [{| code_address := coldStartAddress info - base;
            code_size := coldSize info; label := lbl; tier_tag := tag |}]
   else []).

(** The iterator [LogDataForModule] walks and the tier it passes along. *)
Definition precompiled_methods (B : Build) (pModule : LoadedModule)
  : list (MethodDesc * Z) :=
  if FEATURE_PREJIT B && negb (HasReadyToRunHeader pModule)
  then MethodIterator pModule
  else ReadyToRunInfo_MethodIterator pModule.

Definition image_tier (B : Build) (pModule : LoadedModule) : option string :=
  if FEATURE_PREJIT B && negb (HasReadyToRunHeader pModule)
  then None
  else Some "ReadyToRun".

(** A region that is logged lies in the image: at or above the base and
    inside the address space. *)
Definition region_in_image (B : Build) (base start size : Z) : Prop :=
  0 < size -> 0 <= base <= start /\ start < 2 ^ PTR_BITS B.

Definition method_in_image (B : Build) (codeInfo : Z -> MethodRegionInfo)
    (base : Z) (m : MethodDesc * Z) : Prop :=
  GetFullMethodInfo (fst m) <> None
  /\ region_in_image B base (hotStartAddress (codeInfo (snd m)))
       (hotSize (codeInfo (snd m)))
  /\ region_in_image B base (coldStartAddress (codeInfo (snd m)))
       (coldSize (codeInfo (snd m))).

(** An open stream on which no error was met and every coming write is
    taken whole. *)
Definition sound (this : PerfMap) (s : CFileStream) : Prop :=
  m_FileStream this = Some s
  /\ fs_accept s = []
  /\ m_ErrorEncountered this = false.

(** The stream of [s] after a line was taken whole. *)
Definition appended (s : CFileStream) (line : string) : CFileStream :=
  {| fs_path := fs_path s; fs_data := fs_data s ++ line; fs_accept := [] |}.

(** One call of [LogStubs]. *)
Record StubCall : Type := {
  sc_stubType : option string;
  sc_stubOwner : option string;
  sc_pCode : Z;
  sc_codeSize : Z
}.

Definition stub_counter (rt : Runtime) : Z :=
  match s_Current rt with
  | Some cur => m_StubsMapped cur
  | None => 0
  end.

(** A run of [LogStubs] calls: the state at the end, and the value of
    [m_StubsMapped] each call left, which is the one its line carries. *)
Fixpoint LogStubs_run (B : Build) (rt : Runtime) (calls : list StubCall)
  : Runtime * list Z :=
  match calls with
  | [] => (rt, [])
  | c :: calls' =>
      let rt1 := LogStubs B rt (sc_stubType c) (sc_stubOwner c) (sc_pCode c)
                   (sc_codeSize c) in
      let '(rt2, ns) := LogStubs_run B rt1 calls' in
      (rt2, stub_counter rt1 :: ns)
  end.

(** What the file of the current map holds, and its error flag. *)
Definition current_text (rt : Runtime) : string :=
  match s_Current rt with
  | Some cur => map_text cur
  | None => ""
  end.

Definition current_error (rt : Runtime) : bool :=
  match s_Current rt with
  | Some cur => m_ErrorEncountered cur
  | None => false
  end.

(** Every logging entry point leaves the runtime as it found it. *)
Definition silent (B : Build) (rt : Runtime) : Prop :=
  (forall pMethod pCode codeSize pConfig,
      LogJITCompiledMethod B rt pMethod pCode codeSize pConfig = rt)
  /\ (forall stubType stubOwner pCode codeSize,
      LogStubs B rt stubType stubOwner pCode codeSize = rt)
  /\ (forall pFile, LogImageLoad B rt pFile = Returns rt).

(** Whether [s] ends in [suf]. *)
Fixpoint has_suffix (suf s : string) : bool :=
  (s =? suf)%string
  || match s with
     | "" => false
     | String _ s' => has_suffix suf s'
     end.

(** Whether a line ends in the bracketed tag. *)
Definition tagged (tag line : string) : bool :=
  has_suffix ("[" ++ tag ++ "]" ++ LF) line.

(** What was added to a text that began as [before]. *)
Fixpoint drop (n : nat) (s : string) : string :=
  match n, s with
  | O, _ => s
  | S _, "" => ""
  | S n', String _ s' => drop n' s'
  end.

Definition written_since (before after : string) : string :=
  drop (String.length before) after.

(** The text before the first space, and the text after it. *)
Fixpoint before_space (s : string) : string :=
  match s with
  | "" => ""
  | String c s' => if Ascii.eqb c " " then "" else String c (before_space s')
  end.

Fixpoint after_space (s : string) : string :=
  match s with
  | "" => ""
  | String c s' => if Ascii.eqb c " " then s' else after_space s'
  end.

(** The second space-separated field of a line: its size. *)
Definition size_field (line : string) : string :=
  before_space (after_space line).

Fixpoint no_space (s : string) : bool :=
  match s with
  | "" => true
  | String c s' => negb (Ascii.eqb c " ") && no_space s'
  end.

(** ** Sample builds and hosts *)

Module Sample.

(** A 64-bit runtime build whose ["%p"] prints the bare digits. *)
Definition runtime64 : Build :=
  {| CROSSGEN_COMPILE := false;
     FEATURE_PREJIT := true;
     PTR_BITS := 64;
     fmt_p := Fmt.hex;
     fmt_null_s := "(null)";
     StringFromGUID2 := fun g => Some ("{" ++ Fmt.hex g ++ "}") |}.

(** A 64-bit crossgen build. *)
Definition crossgen64 : Build :=
  {| CROSSGEN_COMPILE := true;
     FEATURE_PREJIT := true;
     PTR_BITS := 64;
     fmt_p := Fmt.hex;
     fmt_null_s := "(null)";
     StringFromGUID2 := fun g => Some ("{" ++ Fmt.hex g ++ "}") |}.

Definition zeroed : PerfMap :=
  {| m_FileStream := None; m_PerfInfo := None;
     m_ErrorEncountered := false; m_StubsMapped := 0 |}.

(** A host on which everything succeeds and every write is taken whole. *)
Definition host : Host :=
  {| GetCurrentProcessId := 4242;
     GetTempPathW := Some "/tmp/";
     new_CFileStream := true;
     OpenForWrite := fun _ => Some [];
     operator_new := zeroed |}.

Definition enabled (tiers : Z) : CLRConfig :=
  {| EXTERNAL_PerfMapEnabled := 1;
     EXTERNAL_PerfMapIgnoreSignal := 0;
     EXTERNAL_PerfMapShowOptimizationTiers := tiers |}.

Definition MF : MethodDesc := {| GetFullMethodInfo := Some "M.F()" |}.

Definition tier1 : PrepareCodeConfig :=
  {| GetJitOptimizationTierStr := Some "Tier1" |}.

(** A host whose file takes three bytes of the first write and every
    later write whole. *)
Definition flaky : Host :=
  {| GetCurrentProcessId := 4242;
     GetTempPathW := Some "/tmp/";
     new_CFileStream := true;
     OpenForWrite := fun _ => Some [3%nat];
     operator_new := zeroed |}.

(** Storage that was used before: the slot of the stream holds a pointer
    that is not null. *)
Definition recycled : PerfMap :=
  {| m_FileStream :=
       Some {| fs_path := "/tmp/old"; fs_data := "old"; fs_accept := [] |};
     m_PerfInfo := None;
     m_ErrorEncountered := true;
     m_StubsMapped := 7 |}.

(** A host without a temporary directory, handing out used storage. *)
Definition no_temp : Host :=
  {| GetCurrentProcessId := 4242;
     GetTempPathW := None;
     new_CFileStream := true;
     OpenForWrite := fun _ => Some [];
     operator_new := recycled |}.

(** A host on which the file cannot be created. *)
Definition no_file : Host :=
  {| GetCurrentProcessId := 4242;
     GetTempPathW := Some "/tmp/";
     new_CFileStream := true;
     OpenForWrite := fun _ => None;
     operator_new := recycled |}.

Definition corelib : Assembly :=
  {| GetSimpleName := "mscorlib";
     GetManifestFile := {| pe_path := "/lib/mscorlib.dll"; GetMVID := 2748 |} |}.

(** One method at 0x10100: 0x20 hot bytes there, 8 cold bytes at 0x10400. *)
Definition regions (pCode : Z) : MethodRegionInfo :=
  {| hotStartAddress := pCode; hotSize := 32;
     coldStartAddress := pCode + 768; coldSize := 8 |}.

Definition r2r_image : LoadedModule :=
  {| GetBase := 65536;
     HasReadyToRunHeader := true;
     MethodIterator := [];
     ReadyToRunInfo_MethodIterator := [(MF, 65792)] |}.

Definition three_stubs : list StubCall :=
  [ {| sc_stubType := Some "DelegateStub"; sc_stubOwner := Some "MyClass";
       sc_pCode := 4096; sc_codeSize := 32 |};
    {| sc_stubType := Some "DelegateStub"; sc_stubOwner := Some "MyClass";
       sc_pCode := 8192; sc_codeSize := 16 |};
    {| sc_stubType := None; sc_stubOwner := None;
       sc_pCode := 12288; sc_codeSize := 16 |} ].

End Sample.

(** ** Runs of calls *)

(** A call of one of the three static entry points. *)
Inductive Event : Type :=
| JitCompiled (pMethod : MethodDesc) (pCode codeSize : Z)
    (pConfig : PrepareCodeConfig)
| StubGenerated (stubType stubOwner : option string) (pCode codeSize : Z)
| ImageLoaded (pFile : PEFile).

Definition log_event (B : Build) (rt : Runtime) (ev : Event)
  : Outcome Runtime :=
  match ev with
  | JitCompiled pMethod pCode codeSize pConfig =>
      Returns (LogJITCompiledMethod B rt pMethod pCode codeSize pConfig)
  | StubGenerated stubType stubOwner pCode codeSize =>
      Returns (LogStubs B rt stubType stubOwner pCode codeSize)
  | ImageLoaded pFile => LogImageLoad B rt pFile
  end.

(** A run goes on as long as the calls return. *)
Fixpoint log_events (B : Build) (rt : Runtime) (evs : list Event)
  : Outcome Runtime :=
  match evs with
  | [] => Returns rt
  | ev :: evs' =>
      match log_event B rt ev with
      | Returns rt' => log_events B rt' evs'
      | Faults rt' => Faults rt'
      end
  end.

(** A call of any static member: the two of the lifecycle, or an event. *)
Inductive Call : Type :=
| CallInitialize (H : Host) (cfg : CLRConfig)
| CallDestroy
| CallLog (ev : Event).

Definition call (B : Build) (rt : Runtime) (c : Call) : Outcome Runtime :=
  match c with
  | CallInitialize H cfg => Returns (Initialize H cfg rt)
  | CallDestroy => Returns (Destroy rt)
  | CallLog ev => log_event B rt ev
  end.

Fixpoint calls (B : Build) (rt : Runtime) (cs : list Call) : Outcome Runtime :=
  match cs with
  | [] => Returns rt
  | c :: cs' =>
      match call B rt c with
      | Returns rt' => calls B rt' cs'
      | Faults rt' => Faults rt'
      end
  end.

(** The number of [LogStubs] calls in a run. *)
Fixpoint count_stubs (evs : list Event) : Z :=
  match evs with
  | [] => 0
  | StubGenerated _ _ _ _ :: evs' => 1 + count_stubs evs'
  | _ :: evs' => count_stubs evs'
  end.

(** Whether there is a current map, whether it has a stream, and on which
    path. *)
Definition current_path (rt : Runtime) : option (option string) :=
  option_map (fun cur => option_map fs_path (m_FileStream cur)) (s_Current rt).

(** The tier [LogJITCompiledMethod] passes to [LogMethod]. *)
Definition jit_tier (B : Build) (show_tiers : bool)
    (pConfig : PrepareCodeConfig) : option string :=
  if negb (CROSSGEN_COMPILE B) && show_tiers
  then GetJitOptimizationTierStr pConfig
  else None.

(** The lines a run of events is to leave when every write is taken whole,
    [n] being the stub counter before the run: a line per method whose
    signature resolves, a line per stub, nothing for an image. *)
Fixpoint expected_text (B : Build) (show_tiers : bool) (n : Z)
    (evs : list Event) : string :=
  match evs with
  | [] => ""
  | JitCompiled pMethod pCode codeSize pConfig :: evs' =>
      match GetFullMethodInfo pMethod with
      | Some sig =>
          method_line B show_tiers pCode codeSize sig
            (jit_tier B show_tiers pConfig)
      | None => ""
      end ++ expected_text B show_tiers n evs'
  | StubGenerated stubType stubOwner pCode codeSize :: evs' =>
      stub_line B pCode codeSize (Fmt.u32 (n + 1))
        (fst (stub_defaults stubType stubOwner))
        (snd (stub_defaults stubType stubOwner))
      ++ expected_text B show_tiers (Fmt.u32 (n + 1)) evs'
  | ImageLoaded _ :: evs' => expected_text B show_tiers n evs'
  end.

(** The methods of an iterator whose signature resolves. *)
Definition resolved (mi : list (MethodDesc * Z)) : list (MethodDesc * Z) :=
  filter (fun m => negb (is_null (GetFullMethodInfo (fst m)))) mi.

(** ** What a call may change *)

(** [this'] is [this] after some writes: the same stream or none at both,
    on the same path, the flag not lowered, the text grown at its end. *)
Definition extends (this this' : PerfMap) : Prop :=
  option_map fs_path (m_FileStream this')
  = option_map fs_path (m_FileStream this)
  /\ (m_ErrorEncountered this = true -> m_ErrorEncountered this' = true)
  /\ exists suffix, map_text this' = map_text this ++ suffix.

(** The same for the runtime: a current map at both or at neither, the
    other statics and what was closed untouched. *)
Definition rt_extends (rt rt' : Runtime) : Prop :=
  match s_Current rt, s_Current rt' with
  | Some cur, Some cur' => extends cur cur'
  | None, None => True
  | _, _ => False
  end
  /\ s_ShowOptimizationTiers rt' = s_ShowOptimizationTiers rt
  /\ ignored_signals rt' = ignored_signals rt
  /\ closed_streams rt' = closed_streams rt
  /\ closed_infos rt' = closed_infos rt.

(** ** Reading a line back *)

(** The number a run of lower-case hexadecimal digits stands for. *)
Definition parse_hex (s : string) : option Z :=
  match s with
  | "" => None
  | _ =>
      option_map (fun d => Z.of_N (N.of_hex_uint d))
        (HexadecimalString.NilEmpty.uint_of_string s)
  end.

(** Address, size and the rest of a line, as a reader of the map splits
    it at the first two spaces. *)
Definition parse_line (line : string) : option (Z * Z * string) :=
  match parse_hex (before_space line), parse_hex (size_field line) with
  | Some addr, Some size => Some (addr, size, after_space (after_space line))
  | _, _ => None
  end.

(** * Properties *)

Example live_line_without_tier :
  current_text
    (LogJITCompiledMethod Sample.runtime64
       (Initialize Sample.host (Sample.enabled 0) startup)
       Sample.MF 4096 32 Sample.tier1)
  = "1000 20 M.F()" ++ LF.
Proof. reflexivity. Qed.

Example live_line_with_tier :
  current_text
    (LogJITCompiledMethod Sample.runtime64
       (Initialize Sample.host (Sample.enabled 1) startup)
       Sample.MF 4096 32 Sample.tier1)
  = "1000 20 M.F()[Tier1]" ++ LF.
Proof. reflexivity. Qed.

Example two_stubs :
  let rt := Initialize Sample.host (Sample.enabled 0) startup in
  let rt := LogStubs Sample.runtime64 rt (Some "DelegateStub") (Some "MyClass") 4096 32 in
  let rt := LogStubs Sample.runtime64 rt (Some "DelegateStub") (Some "MyClass") 8192 16 in
  current_text rt
  = "1000 20 stub<1> DelegateStub<MyClass>" ++ LF
    ++ "2000 10 stub<2> DelegateStub<MyClass>" ++ LF.
Proof. reflexivity. Qed.

Example offline_hot_and_cold :
  map_text
    (LogDataForModule Sample.crossgen64 true Sample.regions
       (NativeImagePerfMap Sample.crossgen64 Sample.host Sample.corelib "/out/")
       Sample.r2r_image)
  = "00000100 20 M.F()[ReadyToRun]" ++ LF
    ++ "00000400 8 M.F()[ReadyToRun]" ++ LF.
Proof. reflexivity. Qed.

(** ** Strings and digits *)

Section Strings.

Lemma str_app_assoc (a b c : string) : (a ++ b) ++ c = a ++ b ++ c.
Proof. induction a as [|ch a IH]; simpl; [reflexivity | now rewrite IH]. Qed.

Lemma str_app_nil_r (a : string) : a ++ "" = a.
Proof. induction a as [|ch a IH]; simpl; [reflexivity | now rewrite IH]. Qed.

Lemma substring_whole (a : string) : substring 0 (String.length a) a = a.
Proof. induction a as [|ch a IH]; simpl; [reflexivity | now rewrite IH]. Qed.

Lemma lines_text_app (l1 l2 : list string) :
  lines_text (l1 ++ l2) = lines_text l1 ++ lines_text l2.
Proof.
  induction l1 as [|ln l1 IH]; simpl; [reflexivity|].
  now rewrite IH, str_app_assoc.
Qed.

Lemma no_space_app (a b : string) :
  no_space (a ++ b) = no_space a && no_space b.
Proof.
  induction a as [|ch a IH]; simpl; [reflexivity|].
  now rewrite IH, andb_assoc.
Qed.

Lemma before_space_app (a r : string) :
  no_space a = true -> before_space (a ++ String " " r) = a.
Proof.
  induction a as [|ch a IH]; simpl; [reflexivity|].
  intros Hn. apply andb_true_iff in Hn as [Hc Ha].
  destruct (Ascii.eqb ch " "); [discriminate|].
  now rewrite IH.
Qed.

Lemma after_space_app (a r : string) :
  no_space a = true -> after_space (a ++ String " " r) = r.
Proof.
  induction a as [|ch a IH]; simpl; [reflexivity|].
  intros Hn. apply andb_true_iff in Hn as [Hc Ha].
  destruct (Ascii.eqb ch " "); [discriminate|].
  now apply IH.
Qed.

Lemma size_field_spec (a h r : string) :
  no_space a = true -> no_space h = true ->
  before_space (after_space (a ++ String " " (h ++ String " " r))) = h.
Proof.
  intros Ha Hh.
  rewrite (after_space_app a _ Ha). now apply before_space_app.
Qed.

End Strings.

(** Flattens nested appends, pushing literal characters to the front. *)
Ltac flat_str := repeat first [rewrite str_app_assoc | progress simpl].

Section Digits.

Lemma hex_digits_no_space (d : Hexadecimal.uint) :
  no_space (HexadecimalString.NilEmpty.string_of_uint d) = true.
Proof. induction d; simpl; auto. Qed.

Lemma hex_no_space (v : Z) : no_space (Fmt.hex v) = true.
Proof.
  unfold Fmt.hex, HexadecimalString.NilZero.string_of_uint.
  destruct (N.to_hex_uint (Z.to_N v)); try reflexivity;
    apply (hex_digits_no_space (_ _)).
Qed.

Lemma zeros_no_space (n : nat) : no_space (Fmt.zeros n) = true.
Proof. induction n; simpl; auto. Qed.

Lemma x08_no_space (v : Z) : no_space (Fmt.x08 v) = true.
Proof.
  unfold Fmt.x08. now rewrite no_space_app, zeros_no_space, hex_no_space.
Qed.

Lemma to_hex_uint_nonnil (n : N) : N.to_hex_uint n <> Hexadecimal.Nil.
Proof.
  destruct n as [|p]; simpl; [discriminate|].
  apply HexadecimalPos.Unsigned.to_uint_nonnil.
Qed.

(** Two natural numbers with the same hexadecimal digits are equal. *)
Lemma hex_inj (a b : Z) : 0 <= a -> 0 <= b -> Fmt.hex a = Fmt.hex b -> a = b.
Proof.
  intros Ha Hb E. unfold Fmt.hex in E.
  apply (f_equal HexadecimalString.NilZero.uint_of_string) in E.
  rewrite !HexadecimalString.NilZero.usu in E by apply to_hex_uint_nonnil.
  injection E as E. apply HexadecimalN.Unsigned.to_uint_inj in E. lia.
Qed.

Lemma u32_range (v : Z) : 0 <= Fmt.u32 v < 2 ^ 32.
Proof. unfold Fmt.u32. apply Z.mod_pos_bound. lia. Qed.

Lemma u32_small (v : Z) : 0 <= v < 2 ^ 32 -> Fmt.u32 v = v.
Proof. intros Hv. unfold Fmt.u32. now apply Z.mod_small. Qed.

Lemma d_small (v : Z) : 0 <= v < 2 ^ 31 -> Fmt.d v = Fmt.dec v.
Proof.
  intros Hv. unfold Fmt.d, Fmt.i32. rewrite u32_small by lia.
  destruct (Z.ltb_spec v (2 ^ 31)); [reflexivity | lia].
Qed.

End Digits.

(** ** The writer *)

Section Writer.

Variable B : Build.

Lemma WriteLine_sound (this : PerfMap) (s : CFileStream) (line : string) :
  sound this s ->
  WriteLine this line = set_FileStream this (Some (appended s line)).
Proof.
  intros (Hs & Hacc & _). unfold WriteLine, CFileStream_Write.
  rewrite Hs, Hacc. simpl.
  now rewrite Nat.eqb_refl, substring_whole.
Qed.

Lemma sound_appended (this : PerfMap) (s : CFileStream) (line : string) :
  sound this s ->
  sound (set_FileStream this (Some (appended s line))) (appended s line).
Proof. intros (_ & _ & He). repeat split; assumption. Qed.

Lemma LogMethod_sound (show : bool) (this : PerfMap) (s : CFileStream)
    (pMethod : MethodDesc) (pCode codeSize : Z) (tier : option string)
    (sig : string) :
  sound this s ->
  GetFullMethodInfo pMethod = Some sig ->
  LogMethod B show this pMethod pCode codeSize tier
  = set_FileStream this
      (Some (appended s (method_line B show pCode codeSize sig tier))).
Proof.
  intros Hsound Hsig. pose proof Hsound as (Hs & _ & He).
  unfold LogMethod. rewrite Hs, He, Hsig. simpl.
  now apply WriteLine_sound.
Qed.

(** [WriteLine] never closes the stream and never lowers the flag. *)
Lemma WriteLine_keeps_stream (this : PerfMap) (line : string) :
  is_null (m_FileStream (WriteLine this line)) = is_null (m_FileStream this).
Proof.
  unfold WriteLine, CFileStream_Write.
  destruct (m_FileStream this) as [s|] eqn:Hs; simpl.
  - destruct (negb (_ =? _)%nat); reflexivity.
  - now rewrite Hs.
Qed.

Lemma WriteLine_latch (this : PerfMap) (line : string) :
  m_ErrorEncountered this = true ->
  m_ErrorEncountered (WriteLine this line) = true.
Proof.
  intros He. unfold WriteLine, CFileStream_Write.
  destruct (m_FileStream this) as [s|]; simpl.
  - destruct (negb (_ =? _)%nat); simpl; auto.
  - assumption.
Qed.

(** A write that comes back short raises the flag. *)
Lemma WriteLine_short (this : PerfMap) (s : CFileStream) (k : nat)
    (rest : list nat) (line : string) :
  m_FileStream this = Some s ->
  fs_accept s = k :: rest ->
  (k < String.length line)%nat ->
  m_ErrorEncountered (WriteLine this line) = true
  /\ map_text (WriteLine this line) = fs_data s ++ substring 0 k line.
Proof.
  intros Hs Hacc Hk. unfold WriteLine, CFileStream_Write, map_text.
  rewrite Hs, Hacc. simpl.
  rewrite (Nat.min_l k) by lia.
  destruct (Nat.eqb_spec (String.length line) k); [lia|]. simpl. auto.
Qed.

(** With the flag up, [LogMethod] and [LogImage] leave the map as it is. *)
Lemma LogMethod_latched (show : bool) (this : PerfMap) (pMethod : MethodDesc)
    (pCode codeSize : Z) (tier : option string) :
  m_ErrorEncountered this = true ->
  LogMethod B show this pMethod pCode codeSize tier = this.
Proof. intros He. unfold LogMethod. now rewrite He, orb_true_r. Qed.

Lemma LogImage_latched (this : PerfMap) (pFile : PEFile) :
  m_ErrorEncountered this = true -> LogImage B this pFile = Returns this.
Proof. intros He. unfold LogImage. now rewrite He, orb_true_r. Qed.

(** Without a stream, [LogMethod] and [LogImage] leave the map as it is. *)
Lemma LogMethod_closed (show : bool) (this : PerfMap) (pMethod : MethodDesc)
    (pCode codeSize : Z) (tier : option string) :
  m_FileStream this = None ->
  LogMethod B show this pMethod pCode codeSize tier = this.
Proof. intros Hs. unfold LogMethod. now rewrite Hs. Qed.

Lemma LogImage_closed (this : PerfMap) (pFile : PEFile) :
  m_FileStream this = None -> LogImage B this pFile = Returns this.
Proof. intros Hs. unfold LogImage. now rewrite Hs. Qed.

End Writer.

(** ** The line of a method *)

(** C5.  A method logged on an open stream that takes the line whole adds
    exactly one line to the file: address, a space, the size in hexadecimal,
    a space, the signature, then the tier in brackets when a tier was
    supplied and tier display is on, and nothing when the tier is null or
    the display is off; a line feed ends it. *)
Theorem LogMethod_line_format (B : Build) (show : bool) (this : PerfMap)
    (s : CFileStream) (pMethod : MethodDesc) (pCode codeSize : Z)
    (tier : option string) (sig : string) :
  sound this s ->
  GetFullMethodInfo pMethod = Some sig ->
  let after := map_text (LogMethod B show this pMethod pCode codeSize tier) in
  (forall t, tier = Some t -> show = true ->
     after = fs_data s ++ FMT_CODE_ADDR B pCode ++ " " ++ Fmt.x codeSize
             ++ " " ++ sig ++ "[" ++ t ++ "]" ++ LF)
  /\ (tier = None \/ show = false ->
     after = fs_data s ++ FMT_CODE_ADDR B pCode ++ " " ++ Fmt.x codeSize
             ++ " " ++ sig ++ LF).
Proof.
  intros Hsound Hsig after. subst after.
  rewrite (LogMethod_sound B show this s pMethod pCode codeSize tier sig)
    by assumption.
  unfold map_text, method_line. simpl. split.
  - intros t -> ->. now flat_str.
  - intros [-> | ->].
    + now flat_str.
    + destruct tier; now flat_str.
Qed.

(** The same at a method of a live map with the tier display on. *)
Lemma LogMethod_line_format_witness :
  map_text
    (LogMethod Sample.runtime64 true
       (PerfMap_pid Sample.host 4242) Sample.MF 4096 32 (Some "Tier1"))
  = "1000 20 M.F()[Tier1]" ++ LF.
Proof.
  pose (s := {| fs_path := "/tmp/perf-4242.map"; fs_data := "";
                fs_accept := [] |}).
  assert (Hsound : sound (PerfMap_pid Sample.host 4242) s)
    by (repeat split; reflexivity).
  exact (proj1
           (LogMethod_line_format Sample.runtime64 true
              (PerfMap_pid Sample.host 4242) s Sample.MF 4096 32
              (Some "Tier1") "M.F()" Hsound eq_refl)
           "Tier1" eq_refl eq_refl).
Defined.

(** ** The size field *)

(** The size field of the two lines as they are built. *)
Lemma line_size_field (B : Build) (show : bool) (pCode codeSize : Z)
    (sig : string) (tier : option string) (n : Z)
    (stubType stubOwner : option string) :
  no_space (FMT_CODE_ADDR B pCode) = true ->
  size_field (method_line B show pCode codeSize sig tier)
    = Fmt.hex (codeSize mod 2 ^ 32)
  /\ size_field (stub_line B pCode codeSize n stubType stubOwner)
    = Fmt.hex (codeSize mod 2 ^ 32).
Proof.
  intros Haddr. split.
  - unfold size_field, method_line.
    destruct tier as [t|]; [destruct show|]; flat_str;
      apply size_field_spec; auto using hex_no_space.
  - unfold size_field, stub_line. flat_str.
    apply size_field_spec; auto using hex_no_space.
Qed.

Lemma hex_truncated (codeSize : Z) :
  2 ^ 32 <= codeSize -> Fmt.hex (codeSize mod 2 ^ 32) <> Fmt.hex codeSize.
Proof.
  intros Hbig E. apply hex_inj in E; try lia.
  - pose proof (u32_range codeSize) as Hr. unfold Fmt.u32 in Hr. lia.
  - apply (u32_range codeSize).
Qed.

Lemma written_since_app (a l : string) : written_since a (a ++ l) = l.
Proof.
  unfold written_since. induction a as [|ch a IH]; simpl; [|exact IH].
  now destruct l.
Qed.

(** ** The pass over a precompiled image *)

Section Precompiled.

Variable B : Build.
Variable show : bool.
Variable codeInfo : Z -> MethodRegionInfo.
Variable baseAddr : Z.
Variable tier : option string.

Lemma sound_text (this : PerfMap) (s : CFileStream) :
  sound this s -> map_text this = fs_data s.
Proof. intros (Hs & _). unfold map_text. now rewrite Hs. Qed.

Lemma label_of_resolved (pMethod : MethodDesc) :
  GetFullMethodInfo pMethod <> None ->
  GetFullMethodInfo pMethod = Some (label_of pMethod).
Proof.
  unfold label_of. destruct (GetFullMethodInfo pMethod); congruence.
Qed.

(** One method: the stream stays sound and gains the lines of the
    entries handed to [LogMethod]. *)
Lemma LogPreCompiledMethod_sound (this : PerfMap) (s : CFileStream)
    (m : MethodDesc * Z) :
  sound this s ->
  GetFullMethodInfo (fst m) <> None ->
  exists s',
    sound (LogPreCompiledMethod B show codeInfo this (fst m) (snd m)
             baseAddr tier) s'
    /\ fs_data s'
       = fs_data s ++ lines_text (map (render B show)
              (logged_entries B codeInfo baseAddr tier m)).
Proof.
  intros Hsound Hsig. apply label_of_resolved in Hsig.
  unfold LogPreCompiledMethod, logged_entries, render.
  destruct (0 <? hotSize (codeInfo (snd m)));
    destruct (0 <? coldSize (codeInfo (snd m))); simpl.
  - rewrite (LogMethod_sound B show this s _ _ _ _ _ Hsound Hsig).
    eapply sound_appended in Hsound.
    rewrite (LogMethod_sound B show _ _ _ _ _ _ _ Hsound Hsig).
    eexists. split; [now apply sound_appended|].
    simpl. now rewrite str_app_nil_r, str_app_assoc.
  - rewrite (LogMethod_sound B show this s _ _ _ _ _ Hsound Hsig).
    eexists. split; [now apply sound_appended|].
    simpl. now rewrite str_app_nil_r.
  - rewrite (LogMethod_sound B show this s _ _ _ _ _ Hsound Hsig).
    eexists. split; [now apply sound_appended|].
    simpl. now rewrite str_app_nil_r.
  - exists s. split; [assumption | now rewrite str_app_nil_r].
Qed.

(** The loop: by induction on what the iterator yields. *)
Lemma log_methods_sound (mi : list (MethodDesc * Z)) :
  forall (this : PerfMap) (s : CFileStream),
    sound this s ->
    Forall (fun m => GetFullMethodInfo (fst m) <> None) mi ->
    exists s',
      sound (log_methods B show codeInfo baseAddr tier mi this) s'
      /\ fs_data s'
         = fs_data s
           ++ lines_text
                (map (render B show)
                   (flat_map (logged_entries B codeInfo baseAddr tier) mi)).
Proof.
  induction mi as [|m mi IH]; intros this s Hsound Hall.
  - exists s. split; [assumption | simpl; now rewrite str_app_nil_r].
  - inversion Hall as [|? ? Hm Hmi]; subst.
    destruct (LogPreCompiledMethod_sound this s m Hsound Hm)
      as (s1 & Hsound1 & Hdata1).
    destruct (IH _ s1 Hsound1 Hmi) as (s2 & Hsound2 & Hdata2).
    exists s2. split; [exact Hsound2|].
    rewrite Hdata2, Hdata1. simpl.
    now rewrite map_app, lines_text_app, str_app_assoc.
Qed.

(** Inside the image the pointer subtraction does not wrap. *)
Lemma logged_entries_in_image (m : MethodDesc * Z) :
  method_in_image B codeInfo baseAddr m ->
  logged_entries B codeInfo baseAddr tier m
  = region_entries (codeInfo (snd m)) baseAddr (label_of (fst m)) tier.
Proof.
  intros (_ & Hhot & Hcold).
  unfold logged_entries, region_entries, ptr_sub.
  unfold region_in_image in Hhot, Hcold.
  destruct (Z.ltb_spec 0 (hotSize (codeInfo (snd m))));
    destruct (Z.ltb_spec 0 (coldSize (codeInfo (snd m))));
    rewrite ?Z.mod_small by lia; reflexivity.
Qed.

Lemma flat_map_ext_Forall {A C : Type} (f g : A -> list C) (P : A -> Prop)
    (l : list A) :
  (forall a, P a -> f a = g a) -> Forall P l -> flat_map f l = flat_map g l.
Proof.
  intros Hfg Hall. induction Hall as [|a l Ha _ IH]; simpl;
    [reflexivity | now rewrite IH, (Hfg a Ha)].
Qed.

End Precompiled.

Lemma LogDataForModule_unfold (B : Build) (show : bool)
    (codeInfo : Z -> MethodRegionInfo) (this : PerfMap)
    (pModule : LoadedModule) :
  LogDataForModule B show codeInfo this pModule
  = log_methods B show codeInfo (GetBase pModule) (image_tier B pModule)
      (precompiled_methods B pModule) this.
Proof.
  unfold LogDataForModule, image_tier, precompiled_methods.
  destruct (FEATURE_PREJIT B && negb (HasReadyToRunHeader pModule));
    reflexivity.
Qed.

(** C3.  On an open stream that takes every line whole, for a module whose
    methods resolve their signature and whose logged regions lie in the
    image, [LogDataForModule] adds to the file exactly the lines of the
    region entries of its methods, in iterator order: per method one entry
    for each region of positive size (hot before cold; two, one or none),
    at the region's start address minus the load base. *)
Theorem LogDataForModule_regions (B : Build) (show : bool)
    (codeInfo : Z -> MethodRegionInfo) (this : PerfMap) (s : CFileStream)
    (pModule : LoadedModule) :
  sound this s ->
  Forall (method_in_image B codeInfo (GetBase pModule))
    (precompiled_methods B pModule) ->
  let per_method m :=
    region_entries (codeInfo (snd m)) (GetBase pModule) (label_of (fst m))
      (image_tier B pModule) in
  map_text (LogDataForModule B show codeInfo this pModule)
  = fs_data s
    ++ lines_text
         (map (render B show)
            (flat_map per_method (precompiled_methods B pModule)))
  /\ forall m,
       let info := codeInfo (snd m) in
       List.length (per_method m)
       = ((if (0 <? hotSize info)%Z then 1 else 0)
          + (if (0 <? coldSize info)%Z then 1 else 0))%nat
       /\ map code_address (per_method m)
          = ((if 0 <? hotSize info
              then [hotStartAddress info - GetBase pModule] else [])
             ++ (if 0 <? coldSize info
                 then [coldStartAddress info - GetBase pModule] else []))%list.
Proof.
  intros Hsound Hall per_method. split.
  - rewrite LogDataForModule_unfold.
    destruct (log_methods_sound B show codeInfo (GetBase pModule)
                (image_tier B pModule) (precompiled_methods B pModule)
                this s Hsound) as (s' & Hsound' & Hdata).
    + eapply Forall_impl; [|exact Hall]. now intros m (Hsig & _).
    + rewrite (sound_text _ _ Hsound'), Hdata.
      do 3 f_equal. apply flat_map_ext_Forall with (2 := Hall).
      intros m Hm. now apply logged_entries_in_image.
  - intros m info. subst per_method info. unfold region_entries.
    destruct (0 <? hotSize (codeInfo (snd m)));
      destruct (0 <? coldSize (codeInfo (snd m))); split; reflexivity.
Qed.

(** C3 at a ReadyToRun image with one method of 0x20 hot and 8 cold bytes. *)
Lemma LogDataForModule_regions_witness :
  map_text
    (LogDataForModule Sample.crossgen64 true Sample.regions
       (NativeImagePerfMap Sample.crossgen64 Sample.host Sample.corelib "/out/")
       Sample.r2r_image)
  = "00000100 20 M.F()[ReadyToRun]" ++ LF
    ++ "00000400 8 M.F()[ReadyToRun]" ++ LF.
Proof.
  pose (s := {| fs_path := "/out/mscorlib.ni.{abc}.map"; fs_data := "";
                fs_accept := [] |}).
  assert (Hsound :
            sound (NativeImagePerfMap Sample.crossgen64 Sample.host
                     Sample.corelib "/out/") s)
    by (repeat split; reflexivity).
  assert (Hall :
            Forall (method_in_image Sample.crossgen64 Sample.regions
                      (GetBase Sample.r2r_image))
              (precompiled_methods Sample.crossgen64 Sample.r2r_image)).
  { constructor; [|constructor].
    split; [discriminate|].
    split; intros _; simpl; lia. }
  exact (proj1
           (LogDataForModule_regions Sample.crossgen64 true Sample.regions
              _ s Sample.r2r_image Hsound Hall)).
Defined.

(** ** The marker of a ReadyToRun image *)

Section Marker.

Lemma has_suffix_app (suf a : string) : has_suffix suf (a ++ suf) = true.
Proof.
  induction a as [|ch a IH]; simpl.
  - destruct suf; simpl; [reflexivity|].
    now rewrite Ascii.eqb_refl, String.eqb_refl.
  - rewrite IH. apply orb_true_r.
Qed.

Lemma render_ReadyToRun (B : Build) (show : bool) (e : MapEntry) :
  tier_tag e = Some "ReadyToRun" ->
  render B show e
  = FMT_CODE_ADDR B (code_address e) ++ " " ++ Fmt.x (code_size e) ++ " "
    ++ label e ++ (if show then "[ReadyToRun]" else "") ++ LF.
Proof.
  intros Htag. unfold render, method_line. rewrite Htag.
  destruct show; now flat_str.
Qed.

Lemma logged_entries_tier (B : Build) (codeInfo : Z -> MethodRegionInfo)
    (base : Z) (tier : option string) (mi : list (MethodDesc * Z)) :
  Forall (fun e => tier_tag e = tier)
    (flat_map (logged_entries B codeInfo base tier) mi).
Proof.
  induction mi as [|m mi IH]; simpl; [constructor|].
  apply Forall_app. split; [|exact IH].
  unfold logged_entries.
  destruct (0 <? hotSize _); destruct (0 <? coldSize _); simpl;
    repeat constructor.
Qed.

Lemma map_ext_Forall' {A C : Type} (f g : A -> C) (P : A -> Prop)
    (l : list A) :
  (forall a, P a -> f a = g a) -> Forall P l -> map f l = map g l.
Proof.
  intros Hfg Hall. induction Hall as [|a l Ha _ IH]; simpl;
    [reflexivity | now rewrite IH, (Hfg a Ha)].
Qed.

End Marker.

(** C6, as the spec states it, fails: with the tier display off, the lines
    of a ReadyToRun image carry no marker. *)
Lemma ReadyToRun_lines_untagged_when_tiers_hidden :
  map_text
    (LogDataForModule Sample.crossgen64 false Sample.regions
       (NativeImagePerfMap Sample.crossgen64 Sample.host Sample.corelib "/out/")
       Sample.r2r_image)
  = "00000100 20 M.F()" ++ LF ++ "00000400 8 M.F()" ++ LF
  /\ tagged "ReadyToRun" ("00000100 20 M.F()" ++ LF) = false
  /\ tagged "ReadyToRun" ("00000400 8 M.F()" ++ LF) = false.
Proof. repeat split; reflexivity. Qed.

(** C6, amended.  For a module with a ReadyToRun header, on an open stream
    that takes every line whole and with signatures that resolve,
    [LogDataForModule] walks the ReadyToRun method iterator and hands every
    entry to [LogMethod] with the tier ["ReadyToRun"]; the line of an entry
    ends in ["[ReadyToRun]"] when the tier display is on, and carries no
    tag when it is off. *)
Theorem LogDataForModule_ReadyToRun_marker (B : Build) (show : bool)
    (codeInfo : Z -> MethodRegionInfo) (this : PerfMap) (s : CFileStream)
    (pModule : LoadedModule) :
  sound this s ->
  HasReadyToRunHeader pModule = true ->
  Forall (fun m => GetFullMethodInfo (fst m) <> None)
    (ReadyToRunInfo_MethodIterator pModule) ->
  let es :=
    flat_map (logged_entries B codeInfo (GetBase pModule) (Some "ReadyToRun"))
      (ReadyToRunInfo_MethodIterator pModule) in
  map_text (LogDataForModule B show codeInfo this pModule)
  = fs_data s
    ++ lines_text
         (map (fun e =>
                 FMT_CODE_ADDR B (code_address e) ++ " "
                 ++ Fmt.x (code_size e) ++ " " ++ label e
                 ++ (if show then "[ReadyToRun]" else "") ++ LF) es)
  /\ Forall (fun e => tier_tag e = Some "ReadyToRun") es
  /\ (show = true ->
      Forall (fun e => tagged "ReadyToRun" (render B show e) = true) es).
Proof.
  intros Hsound Hr2r Hall es.
  assert (Htags : Forall (fun e => tier_tag e = Some "ReadyToRun") es)
    by apply logged_entries_tier.
  split; [|split].
  - unfold LogDataForModule. rewrite Hr2r, andb_false_r.
    destruct (log_methods_sound B show codeInfo (GetBase pModule)
                (Some "ReadyToRun") (ReadyToRunInfo_MethodIterator pModule)
                this s Hsound Hall) as (s' & Hsound' & Hdata).
    rewrite (sound_text _ _ Hsound'), Hdata. do 2 f_equal.
    apply map_ext_Forall' with (2 := Htags).
    intros e He. now apply render_ReadyToRun.
  - exact Htags.
  - intros ->. eapply Forall_impl; [|exact Htags].
    intros e He.
    assert (E : render B true e
                = (FMT_CODE_ADDR B (code_address e) ++ " "
                   ++ Fmt.x (code_size e) ++ " " ++ label e)
                  ++ "[" ++ "ReadyToRun" ++ "]" ++ LF)
      by (rewrite (render_ReadyToRun B true e He); now flat_str).
    rewrite E. apply has_suffix_app.
Qed.

(** C6 amended, at the sample image with the tier display on. *)
Lemma LogDataForModule_ReadyToRun_marker_witness :
  map_text
    (LogDataForModule Sample.crossgen64 true Sample.regions
       (NativeImagePerfMap Sample.crossgen64 Sample.host Sample.corelib "/out/")
       Sample.r2r_image)
  = "00000100 20 M.F()[ReadyToRun]" ++ LF
    ++ "00000400 8 M.F()[ReadyToRun]" ++ LF.
Proof.
  pose (s := {| fs_path := "/out/mscorlib.ni.{abc}.map"; fs_data := "";
                fs_accept := [] |}).
  assert (Hsound :
            sound (NativeImagePerfMap Sample.crossgen64 Sample.host
                     Sample.corelib "/out/") s)
    by (repeat split; reflexivity).
  assert (Hall :
            Forall (fun m => GetFullMethodInfo (fst m) <> None)
              (ReadyToRunInfo_MethodIterator Sample.r2r_image))
    by (constructor; [discriminate | constructor]).
  exact (proj1
           (LogDataForModule_ReadyToRun_marker Sample.crossgen64 true
              Sample.regions _ s Sample.r2r_image Hsound eq_refl Hall)).
Defined.

(** ** The stub counter *)

Section Stubs.

Variable B : Build.

Lemma WriteLine_counter (this : PerfMap) (line : string) :
  m_StubsMapped (WriteLine this line) = m_StubsMapped this.
Proof.
  unfold WriteLine, CFileStream_Write.
  destruct (m_FileStream this) as [s|]; simpl; [|reflexivity].
  destruct (negb (_ =? _)%nat); reflexivity.
Qed.

Lemma not_null {A : Type} (p : option A) : p <> None -> is_null p = false.
Proof. destruct p; [reflexivity | congruence]. Qed.

(** Past the guard, [LogStubs] increments, builds the line and writes. *)
Lemma LogStubs_guarded (rt : Runtime) (cur : PerfMap)
    (stubType stubOwner : option string) (pCode codeSize : Z) :
  s_Current rt = Some cur ->
  m_FileStream cur <> None ->
  LogStubs B rt stubType stubOwner pCode codeSize
  = set_Current rt
      (Some (WriteLine
               (set_StubsMapped cur (Fmt.u32 (m_StubsMapped cur + 1)))
               (stub_line B pCode codeSize
                  (Fmt.u32 (m_StubsMapped cur + 1))
                  (fst (stub_defaults stubType stubOwner))
                  (snd (stub_defaults stubType stubOwner))))).
Proof.
  intros Hcur Hs. unfold LogStubs. rewrite Hcur, (not_null _ Hs).
  destruct (stub_defaults stubType stubOwner). reflexivity.
Qed.

Lemma LogStubs_run_counters (calls : list StubCall) :
  forall (rt : Runtime) (cur : PerfMap),
    s_Current rt = Some cur ->
    m_FileStream cur <> None ->
    0 <= m_StubsMapped cur ->
    m_StubsMapped cur + Z.of_nat (List.length calls) < 2 ^ 32 ->
    snd (LogStubs_run B rt calls)
    = map (fun i => m_StubsMapped cur + Z.of_nat i)
        (seq 1 (List.length calls)).
Proof.
  induction calls as [|c calls IH]; intros rt cur Hcur Hs H0 Hlt;
    [reflexivity|].
  cbn [LogStubs_run List.length seq map].
  cbn [List.length] in Hlt.
  rewrite (LogStubs_guarded rt cur _ _ _ _ Hcur Hs).
  set (cur1 := WriteLine _ _).
  assert (Hn : m_StubsMapped cur1 = m_StubsMapped cur + 1).
  { unfold cur1. rewrite WriteLine_counter. simpl. apply u32_small. lia. }
  assert (Hs1 : m_FileStream cur1 <> None).
  { unfold cur1. intros E.
    pose proof (WriteLine_keeps_stream
                  (set_StubsMapped cur (Fmt.u32 (m_StubsMapped cur + 1)))
                  (stub_line B (sc_pCode c) (sc_codeSize c)
                     (Fmt.u32 (m_StubsMapped cur + 1))
                     (fst (stub_defaults (sc_stubType c) (sc_stubOwner c)))
                     (snd (stub_defaults (sc_stubType c) (sc_stubOwner c)))))
      as Hk.
    rewrite E in Hk. simpl in Hk. rewrite (not_null _ Hs) in Hk.
    discriminate. }
  specialize (IH (set_Current rt (Some cur1)) cur1 eq_refl Hs1).
  destruct (LogStubs_run B (set_Current rt (Some cur1)) calls)
    as [rt2 ns] eqn:Hrun.
  simpl in IH |- *. unfold stub_counter at 1. simpl.
  rewrite IH by lia. rewrite Hn.
  rewrite <- (seq_shift (List.length calls) 1), map_map.
  f_equal. apply map_ext. intros i. lia.
Qed.

Lemma seq_sorted (n a : nat) :
  StronglySorted Z.lt (map Z.of_nat (seq a n)).
Proof.
  revert a. induction n as [|n IH]; intros a; simpl; constructor.
  - apply IH.
  - apply Forall_forall. intros z Hz.
    apply in_map_iff in Hz as (i & <- & Hi). apply in_seq in Hi. lia.
Qed.

End Stubs.

(** C4.  The constructor leaves the counter at zero and [LogStubs]
    pre-increments it.  So on a freshly constructed current map with a
    stream, a run of [N] calls (fewer than [2 ^ 32], the range of the
    counter) is numbered 1, 2, ..., [N] in call order, whatever the writes
    do: the numbers increase and none comes twice.  When the stream takes
    the first line whole, that line reads ["stub<1>"] after the address and
    the size. *)
Theorem stub_counter_sequence (B : Build) (H : Host) (pid : Z) (rt : Runtime)
    (calls : list StubCall) :
  s_Current rt = Some (PerfMap_pid H pid) ->
  m_FileStream (PerfMap_pid H pid) <> None ->
  Z.of_nat (List.length calls) < 2 ^ 32 ->
  let ns := snd (LogStubs_run B rt calls) in
  stub_counter rt = 0
  /\ ns = map Z.of_nat (seq 1 (List.length calls))
  /\ StronglySorted Z.lt ns
  /\ NoDup ns
  /\ forall s stubType stubOwner pCode codeSize,
       m_FileStream (PerfMap_pid H pid) = Some s ->
       fs_accept s = [] ->
       current_text (LogStubs B rt stubType stubOwner pCode codeSize)
       = fs_data s ++ FMT_CODE_ADDR B pCode ++ " " ++ Fmt.x codeSize
         ++ " stub<" ++ "1" ++ "> "
         ++ fmt_s B (fst (stub_defaults stubType stubOwner)) ++ "<"
         ++ fmt_s B (snd (stub_defaults stubType stubOwner)) ++ ">" ++ LF.
Proof.
  intros Hcur Hs Hlt ns.
  assert (H0 : m_StubsMapped (PerfMap_pid H pid) = 0).
  { unfold PerfMap_pid. destruct (GetTempPathW H); [|reflexivity].
    unfold OpenFile. destruct (new_CFileStream H); [|reflexivity].
    destruct (OpenForWrite H _); reflexivity. }
  assert (Hns : ns = map Z.of_nat (seq 1 (List.length calls))).
  { subst ns. rewrite (LogStubs_run_counters B calls rt _ Hcur Hs) by lia.
    apply map_ext. intros i. lia. }
  split; [unfold stub_counter; now rewrite Hcur|].
  split; [exact Hns|]. rewrite Hns.
  split; [apply seq_sorted|].
  split.
  - apply Injective_map_NoDup; [exact Nat2Z.inj | apply seq_NoDup].
  - intros s stubType stubOwner pCode codeSize Hstream Hacc.
    rewrite (LogStubs_guarded B rt _ _ _ _ _ Hcur Hs), H0.
    unfold current_text, map_text, WriteLine, CFileStream_Write. simpl.
    rewrite Hstream, Hacc. simpl.
    rewrite Nat.eqb_refl, substring_whole. simpl.
    unfold stub_line. reflexivity.
Qed.

(** C4 at a live map on the sample host and three calls. *)
Lemma stub_counter_sequence_witness :
  snd (LogStubs_run Sample.runtime64
         (Initialize Sample.host (Sample.enabled 0) startup)
         Sample.three_stubs)
  = [1; 2; 3].
Proof.
  assert (Hs : m_FileStream (PerfMap_pid Sample.host 4242) <> None)
    by discriminate.
  assert (Hlt : Z.of_nat (List.length Sample.three_stubs) < 2 ^ 32)
    by (simpl; lia).
  exact (proj1 (proj2
           (stub_counter_sequence Sample.runtime64 Sample.host 4242
              (Initialize Sample.host (Sample.enabled 0) startup)
              Sample.three_stubs eq_refl Hs Hlt))).
Defined.

(** ** After a short write *)

Section Latch.

Variable B : Build.

(** [LogJITCompiledMethod] and [LogImageLoad] test the flag: once it is
    up they leave the runtime, and with it the file, as it is. *)
Lemma latched_method_and_image_silent (rt : Runtime) (cur : PerfMap) :
  s_Current rt = Some cur ->
  m_ErrorEncountered cur = true ->
  (forall pMethod pCode codeSize pConfig,
      current_text (LogJITCompiledMethod B rt pMethod pCode codeSize pConfig)
      = current_text rt)
  /\ (forall pFile,
         current_text (final_state (LogImageLoad B rt pFile))
         = current_text rt).
Proof.
  intros Hcur He. split; intros.
  - unfold LogJITCompiledMethod. rewrite Hcur.
    rewrite LogMethod_latched by assumption.
    unfold current_text. simpl. now rewrite Hcur.
  - unfold LogImageLoad. rewrite Hcur.
    rewrite LogImage_latched by assumption.
    unfold current_text. simpl. now rewrite Hcur.
Qed.

(** [LogStubs] does not test it: on a stream that takes the line the file
    grows by the whole line, flag up or not. *)
Lemma LogStubs_ignores_latch (rt : Runtime) (cur : PerfMap)
    (s : CFileStream) (stubType stubOwner : option string)
    (pCode codeSize : Z) :
  s_Current rt = Some cur ->
  m_FileStream cur = Some s ->
  fs_accept s = [] ->
  current_text (LogStubs B rt stubType stubOwner pCode codeSize)
  = fs_data s
    ++ stub_line B pCode codeSize (Fmt.u32 (m_StubsMapped cur + 1))
         (fst (stub_defaults stubType stubOwner))
         (snd (stub_defaults stubType stubOwner)).
Proof.
  intros Hcur Hs Hacc.
  rewrite (LogStubs_guarded B rt cur) by (assumption || congruence).
  unfold current_text, map_text, WriteLine, CFileStream_Write. simpl.
  rewrite Hs, Hacc. simpl. now rewrite Nat.eqb_refl, substring_whole.
Qed.

End Latch.

(** C1, evaluated where it fails.  The file of the live map takes three
    bytes of the first line: the flag goes up, the stream stays open.  The
    next [LogStubs] call adds its whole line to the file all the same. *)
Theorem LogStubs_writes_after_short_write :
  let rt0 := Initialize Sample.flaky (Sample.enabled 0) startup in
  let rt1 := LogJITCompiledMethod Sample.runtime64 rt0 Sample.MF 4096 32
               Sample.tier1 in
  let rt2 := LogStubs Sample.runtime64 rt1 (Some "DelegateStub")
               (Some "MyClass") 8192 16 in
  current_error rt1 = true
  /\ current_text rt1 = "100"
  /\ current_error rt2 = true
  /\ current_text rt2 = "100" ++ "2000 10 stub<1> DelegateStub<MyClass>" ++ LF.
Proof. repeat split; reflexivity. Qed.

(** ** Null arguments of a stub *)

(** C2, evaluated where it fails.  A null stub type with an owner at hand:
    the second test assigns the owner, so the owner becomes ["?"] and the
    type stays null; the line shows what the formatter prints for a null
    string, and ["?"] where the owner was.  A null owner alone is replaced
    as the claim says. *)
Theorem LogStubs_null_type_replaces_owner :
  stub_defaults None (Some "MyClass") = (None, Some "?")
  /\ stub_defaults None None = (None, Some "?")
  /\ stub_defaults (Some "DelegateStub") None = (Some "DelegateStub", Some "?")
  /\ current_text
       (LogStubs Sample.runtime64
          (Initialize Sample.host (Sample.enabled 0) startup)
          None (Some "MyClass") 4096 32)
     = "1000 20 stub<1> (null)<?>" ++ LF.
Proof. repeat split; reflexivity. Qed.

(** On any build the type field of such a line is the formatter's text for
    a null string. *)
Lemma stub_line_null_type (B : Build) (pCode codeSize n : Z)
    (stubOwner : option string) :
  stub_line B pCode codeSize n
    (fst (stub_defaults None stubOwner)) (snd (stub_defaults None stubOwner))
  = FMT_CODE_ADDR B pCode ++ " " ++ Fmt.x codeSize ++ " stub<" ++ Fmt.d n
    ++ "> " ++ fmt_null_s B ++ "<?>" ++ LF.
Proof. unfold stub_defaults. destruct stubOwner; reflexivity. Qed.

(** ** Failed setup *)

Section Setup.

Variable B : Build.
Variable H : Host.

(** A map without a stream is silent. *)
Lemma closed_map_silent (rt : Runtime) (cur : PerfMap) :
  s_Current rt = Some cur ->
  m_FileStream cur = None ->
  silent B rt.
Proof.
  intros Hcur Hs. destruct rt as [c sh ig cs ci]. simpl in Hcur. subst c.
  repeat split; intros.
  - unfold LogJITCompiledMethod. simpl.
    now rewrite LogMethod_closed by assumption.
  - unfold LogStubs. simpl. now rewrite Hs.
  - unfold LogImageLoad. simpl.
    now rewrite LogImage_closed by assumption.
Qed.

(** Past [GetTempPathW], a file that cannot be created leaves the live
    map without a stream. *)
Lemma PerfMap_pid_open_failed (pid : Z) (tempPath : string) :
  GetTempPathW H = Some tempPath ->
  new_CFileStream H = false
  \/ OpenForWrite H (tempPath ++ "perf-" ++ Fmt.d pid ++ ".map") = None ->
  m_FileStream (PerfMap_pid H pid) = None.
Proof.
  intros Htmp Hfail. unfold PerfMap_pid, OpenFile. rewrite Htmp.
  destruct (new_CFileStream H); [|reflexivity].
  destruct Hfail as [Hn | Ho]; [discriminate|]. now rewrite Ho.
Qed.

(** The offline map has a stream exactly when the file was created. *)
Lemma NativeImagePerfMap_stream (pAssembly : Assembly) (pDestPath : string) :
  m_FileStream (NativeImagePerfMap B H pAssembly pDestPath) = None
  <-> new_CFileStream H = false
      \/ OpenForWrite H (sDestPerfMapPath B pAssembly pDestPath) = None.
Proof.
  unfold NativeImagePerfMap, OpenFile.
  destruct (new_CFileStream H); [|tauto].
  destruct (OpenForWrite H _); simpl; split; intros; auto;
    try discriminate.
  destruct H0; discriminate.
Qed.

(** When [GetTempPathW] fails the constructor returns before it has
    assigned the stream: the field holds what the storage held. *)
Lemma PerfMap_pid_no_temp_path (pid : Z) :
  GetTempPathW H = None ->
  m_FileStream (PerfMap_pid H pid) = m_FileStream (operator_new H)
  /\ m_PerfInfo (PerfMap_pid H pid) = m_PerfInfo (operator_new H).
Proof. intros Htmp. unfold PerfMap_pid. rewrite Htmp. split; reflexivity. Qed.

End Setup.

(** The file cannot be created: no stream, whatever the storage held. *)
Example live_map_without_file :
  m_FileStream (PerfMap_pid Sample.no_file 4242) = None
  /\ silent Sample.runtime64
       (Initialize Sample.no_file (Sample.enabled 1) startup).
Proof.
  split; [reflexivity|].
  now apply (closed_map_silent Sample.runtime64 _
               (PerfMap_pid Sample.no_file 4242)).
Qed.

(** C7, evaluated where it fails.  [GetTempPathW] fails and the storage of
    the new map was used before: the stream of the map is what the storage
    held, not null, and a stub logged on the map is written through it.
    The constructor without arguments, on the same storage, sets the
    stream to null. *)
Theorem PerfMap_pid_returns_before_stream_is_set :
  let rt := Initialize Sample.no_temp (Sample.enabled 0) startup in
  s_Current rt = Some (PerfMap_pid Sample.no_temp 4242)
  /\ m_FileStream (PerfMap_pid Sample.no_temp 4242)
     = m_FileStream Sample.recycled
  /\ m_FileStream (PerfMap_pid Sample.no_temp 4242) <> None
  /\ current_text (LogStubs Sample.runtime64 rt (Some "K") (Some "O") 4096 32)
     = "old" ++ "1000 20 stub<1> K<O>" ++ LF
  /\ m_FileStream (PerfMap_default Sample.no_temp) = None.
Proof. repeat split; try reflexivity. discriminate. Qed.

(** On the map that constructor leaves, stream set and recorder null, an
    image load passes the guard and calls the recorder: it faults. *)
Example image_load_without_recorder_faults :
  LogImageLoad Sample.runtime64
    (Initialize Sample.no_temp (Sample.enabled 0) startup)
    (GetManifestFile Sample.corelib)
  = Faults (Initialize Sample.no_temp (Sample.enabled 0) startup).
Proof. reflexivity. Qed.

(** ** The path of the offline map *)

(** C8.  Two offline maps built from assemblies of one simple name and one
    image signature, for one destination directory: each constructor
    prints [<directory><simple name>.ni.<signature>.map] and asks its host
    to create the file at that path, so the map has the stream the host
    opens there and none when the host fails; on hosts that create the
    file both maps write to that one path. *)
Theorem NativeImagePerfMap_path_deterministic (B : Build) (H1 H2 : Host)
    (a1 a2 : Assembly) (pDestPath : string) :
  GetSimpleName a1 = GetSimpleName a2 ->
  GetNativeImageSignature B (GetManifestFile a1)
  = GetNativeImageSignature B (GetManifestFile a2) ->
  let path :=
    pDestPath ++ GetSimpleName a1 ++ ".ni."
    ++ GetNativeImageSignature B (GetManifestFile a1) ++ ".map" in
  let opened (H : Host) :=
    if new_CFileStream H
    then option_map
           (fun acc => {| fs_path := path; fs_data := ""; fs_accept := acc |})
           (OpenForWrite H path)
    else None in
  sDestPerfMapPath B a1 pDestPath = path
  /\ sDestPerfMapPath B a2 pDestPath = path
  /\ m_FileStream (NativeImagePerfMap B H1 a1 pDestPath) = opened H1
  /\ m_FileStream (NativeImagePerfMap B H2 a2 pDestPath) = opened H2
  /\ (new_CFileStream H1 = true -> OpenForWrite H1 path <> None ->
      new_CFileStream H2 = true -> OpenForWrite H2 path <> None ->
      option_map fs_path (m_FileStream (NativeImagePerfMap B H1 a1 pDestPath))
      = Some path
      /\ option_map fs_path
           (m_FileStream (NativeImagePerfMap B H2 a2 pDestPath))
         = Some path).
Proof.
  intros Hname Hsig path opened.
  assert (Hp1 : sDestPerfMapPath B a1 pDestPath = path) by reflexivity.
  assert (Hp2 : sDestPerfMapPath B a2 pDestPath = path)
    by (unfold sDestPerfMapPath; now rewrite <- Hname, <- Hsig).
  assert (Hopen : forall H a,
             sDestPerfMapPath B a pDestPath = path ->
             m_FileStream (NativeImagePerfMap B H a pDestPath) = opened H).
  { intros H a Hp. unfold NativeImagePerfMap, OpenFile, opened. rewrite Hp.
    destruct (new_CFileStream H); [|reflexivity].
    destruct (OpenForWrite H path); reflexivity. }
  split; [exact Hp1|]. split; [exact Hp2|].
  split; [now apply Hopen|]. split; [now apply Hopen|].
  intros Hn1 Ho1 Hn2 Ho2.
  rewrite (Hopen H1 a1 Hp1), (Hopen H2 a2 Hp2). unfold opened.
  rewrite Hn1, Hn2.
  destruct (OpenForWrite H1 path); [|congruence].
  destruct (OpenForWrite H2 path); [|congruence].
  split; reflexivity.
Qed.

(** C8 at two assemblies of the same name and MVID loaded from different
    files, on two hosts that create the file. *)
Lemma NativeImagePerfMap_path_deterministic_witness :
  option_map fs_path
    (m_FileStream
       (NativeImagePerfMap Sample.crossgen64 Sample.host Sample.corelib
          "/out/"))
  = Some "/out/mscorlib.ni.{abc}.map"
  /\ option_map fs_path
       (m_FileStream
          (NativeImagePerfMap Sample.crossgen64 Sample.flaky
             {| GetSimpleName := "mscorlib";
                GetManifestFile := {| pe_path := "/build2/mscorlib.dll";
                                      GetMVID := 2748 |} |}
             "/out/"))
     = Some "/out/mscorlib.ni.{abc}.map".
Proof.
  assert (Ho1 : OpenForWrite Sample.host "/out/mscorlib.ni.{abc}.map" <> None)
    by discriminate.
  assert (Ho2 : OpenForWrite Sample.flaky "/out/mscorlib.ni.{abc}.map" <> None)
    by discriminate.
  exact (proj2 (proj2 (proj2 (proj2
           (NativeImagePerfMap_path_deterministic Sample.crossgen64
              Sample.host Sample.flaky Sample.corelib
              {| GetSimpleName := "mscorlib";
                 GetManifestFile := {| pe_path := "/build2/mscorlib.dll";
                                       GetMVID := 2748 |} |}
              "/out/" eq_refl eq_refl))))
           eq_refl Ho1 eq_refl Ho2).
Defined.

(** ** Without a current map *)

(** C9.  Before [Initialize] has run and after [Destroy], [s_Current] is
    null and the three static entry points, [LogJITCompiledMethod],
    [LogStubs] and [LogImageLoad], return the runtime they were given:
    no file, no recorder and no static changes. *)
Theorem logging_without_current_map_is_noop (B : Build) :
  s_Current startup = None
  /\ (forall rt, s_Current (Destroy rt) = None)
  /\ silent B startup
  /\ (forall rt, silent B (Destroy rt))
  /\ (forall rt, s_Current rt = None -> silent B rt).
Proof.
  assert (Hsil : forall rt, s_Current rt = None -> silent B rt).
  { intros rt Hnone. repeat split; intros.
    - unfold LogJITCompiledMethod. now rewrite Hnone.
    - unfold LogStubs. now rewrite Hnone.
    - unfold LogImageLoad. now rewrite Hnone. }
  assert (Hdes : forall rt, s_Current (Destroy rt) = None).
  { intros rt. unfold Destroy.
    destruct (s_Current rt) eqn:E; [reflexivity | exact E]. }
  repeat split; auto; try (apply Hsil; auto).
Qed.

(** C9 after a live map was set up, written to and destroyed. *)
Lemma logging_without_current_map_is_noop_witness :
  let rt := Destroy
              (LogStubs Sample.runtime64
                 (Initialize Sample.host (Sample.enabled 0) startup)
                 (Some "K") (Some "O") 4096 32) in
  silent Sample.runtime64 rt.
Proof.
  intros rt.
  exact (proj2 (proj2 (proj2 (proj2
           (logging_without_current_map_is_noop Sample.runtime64))))
           rt eq_refl).
Defined.


(** ** The size field of what is written *)

(** C10.  What [LogMethod] and [LogStubs] write to the file carries the
    code size through a 32-bit conversion: on a current map whose stream
    is open, error-free and takes the line whole, the text either call
    adds to the file has, as its size field, the hexadecimal text of the
    code size modulo [2 ^ 32]; for a code size of [2 ^ 32] or more that is
    not the text of the code size. *)
Theorem size_field_is_32_bit (B : Build) (rt : Runtime) (cur : PerfMap)
    (s : CFileStream) (pMethod : MethodDesc) (pCode codeSize : Z)
    (tier : option string) (sig : string)
    (stubType stubOwner : option string) :
  s_Current rt = Some cur ->
  sound cur s ->
  GetFullMethodInfo pMethod = Some sig ->
  no_space (FMT_CODE_ADDR B pCode) = true ->
  size_field
    (written_since (fs_data s)
       (map_text
          (LogMethod B (s_ShowOptimizationTiers rt) cur pMethod pCode
             codeSize tier)))
  = Fmt.hex (codeSize mod 2 ^ 32)
  /\ size_field
       (written_since (fs_data s)
          (current_text (LogStubs B rt stubType stubOwner pCode codeSize)))
     = Fmt.hex (codeSize mod 2 ^ 32)
  /\ (2 ^ 32 <= codeSize ->
      Fmt.hex (codeSize mod 2 ^ 32) <> Fmt.hex codeSize).
Proof.
  intros Hcur Hsound Hsig Haddr.
  pose proof Hsound as (Hs & Hacc & _).
  split; [|split].
  - rewrite (LogMethod_sound B _ cur s pMethod _ _ _ sig Hsound Hsig).
    unfold map_text. simpl. rewrite written_since_app.
    now apply (line_size_field B _ pCode codeSize sig tier 0 None None).
  - rewrite (LogStubs_ignores_latch B rt cur s _ _ _ _ Hcur Hs Hacc).
    rewrite written_since_app.
    now apply (line_size_field B false pCode codeSize "" None).
  - apply hex_truncated.
Qed.

(** C10 on a crossgen build, at a method and a stub of [2 ^ 32 + 32]
    bytes logged on the sample host. *)
Lemma size_field_is_32_bit_witness :
  size_field
    (written_since ""
       (map_text
          (LogMethod Sample.crossgen64 false (PerfMap_pid Sample.host 4242)
             Sample.MF 4096 (2 ^ 32 + 32) None)))
  = "20"
  /\ size_field
       (written_since ""
          (current_text
             (LogStubs Sample.crossgen64
                (Initialize Sample.host (Sample.enabled 0) startup)
                (Some "K") (Some "O") 4096 (2 ^ 32 + 32))))
     = "20"
  /\ "20" <> Fmt.hex (2 ^ 32 + 32).
Proof.
  pose (s := {| fs_path := "/tmp/perf-4242.map"; fs_data := "";
                fs_accept := [] |}).
  assert (Hsound : sound (PerfMap_pid Sample.host 4242) s)
    by (repeat split; reflexivity).
  destruct (size_field_is_32_bit Sample.crossgen64
              (Initialize Sample.host (Sample.enabled 0) startup)
              (PerfMap_pid Sample.host 4242) s Sample.MF 4096 (2 ^ 32 + 32)
              None "M.F()" (Some "K") (Some "O")
              eq_refl Hsound eq_refl eq_refl)
    as (Hm & Hst & Hne).
  split; [exact Hm | split; [exact Hst | apply Hne; lia]].
Defined.


(** * Further properties *)

(** ** What every logging call keeps *)

Section Extends.

Variable B : Build.

Lemma extends_refl (this : PerfMap) : extends this this.
Proof.
  split; [reflexivity|]. split; [auto|].
  exists "". now rewrite str_app_nil_r.
Qed.

Lemma extends_trans (a b c : PerfMap) :
  extends a b -> extends b c -> extends a c.
Proof.
  intros (Hp1 & He1 & s1 & Ht1) (Hp2 & He2 & s2 & Ht2).
  split; [congruence|]. split; [auto|].
  exists (s1 ++ s2). now rewrite Ht2, Ht1, str_app_assoc.
Qed.

Lemma WriteLine_extends (this : PerfMap) (line : string) :
  extends this (WriteLine this line).
Proof.
  unfold extends, map_text, WriteLine, CFileStream_Write.
  destruct (m_FileStream this) as [s|] eqn:Hs; simpl.
  - destruct (negb (_ =? _)%nat); simpl; repeat split; auto; eauto.
  - rewrite Hs. repeat split; auto. exists "". reflexivity.
Qed.

Lemma set_StubsMapped_extends (this : PerfMap) (n : Z) :
  extends this (set_StubsMapped this n).
Proof.
  unfold extends, map_text. simpl. repeat split; auto.
  exists "". now rewrite str_app_nil_r.
Qed.

Lemma LogMethod_extends (show : bool) (this : PerfMap) (pMethod : MethodDesc)
    (pCode codeSize : Z) (tier : option string) :
  extends this (LogMethod B show this pMethod pCode codeSize tier).
Proof.
  unfold LogMethod.
  destruct (is_null (m_FileStream this) || m_ErrorEncountered this);
    [apply extends_refl|].
  destruct (GetFullMethodInfo pMethod);
    [apply WriteLine_extends | apply extends_refl].
Qed.

Lemma LogImage_file (this : PerfMap) (pFile : PEFile) :
  let this' := final_state (LogImage B this pFile) in
  m_FileStream this' = m_FileStream this
  /\ m_ErrorEncountered this' = m_ErrorEncountered this
  /\ m_StubsMapped this' = m_StubsMapped this.
Proof.
  unfold LogImage.
  destruct (is_null (m_FileStream this) || m_ErrorEncountered this);
    [|destruct (m_PerfInfo this)]; repeat split; reflexivity.
Qed.

Lemma LogImage_extends (this : PerfMap) (pFile : PEFile) :
  extends this (final_state (LogImage B this pFile)).
Proof.
  destruct (LogImage_file this pFile) as (Hs & He & _).
  unfold extends, map_text. rewrite Hs, He. repeat split; auto.
  exists "". now rewrite str_app_nil_r.
Qed.

Lemma rt_extends_refl (rt : Runtime) : rt_extends rt rt.
Proof.
  unfold rt_extends. destruct (s_Current rt); repeat split; auto.
  all: try apply extends_refl.
Qed.

Lemma rt_extends_trans (a b c : Runtime) :
  rt_extends a b -> rt_extends b c -> rt_extends a c.
Proof.
  unfold rt_extends.
  intros (H1 & Hs1 & Hi1 & Hc1 & Hn1) (H2 & Hs2 & Hi2 & Hc2 & Hn2).
  repeat split; try congruence.
  destruct (s_Current a), (s_Current b), (s_Current c); try tauto.
  eapply extends_trans; eassumption.
Qed.

Lemma set_Current_extends (rt : Runtime) (cur cur' : PerfMap) :
  s_Current rt = Some cur -> extends cur cur' ->
  rt_extends rt (set_Current rt (Some cur')).
Proof.
  intros Hcur Hext. unfold rt_extends. rewrite Hcur. simpl.
  repeat split; auto; apply Hext.
Qed.

Lemma log_event_extends (rt : Runtime) (ev : Event) :
  rt_extends rt (final_state (log_event B rt ev)).
Proof.
  destruct ev as [pMethod pCode codeSize pConfig
                 | stubType stubOwner pCode codeSize | pFile]; simpl.
  - unfold LogJITCompiledMethod.
    destruct (s_Current rt) as [cur|] eqn:Hcur; [|apply rt_extends_refl].
    apply (set_Current_extends rt cur _ Hcur), LogMethod_extends.
  - unfold LogStubs.
    destruct (s_Current rt) as [cur|] eqn:Hcur; [|apply rt_extends_refl].
    destruct (is_null (m_FileStream cur)); [apply rt_extends_refl|].
    destruct (stub_defaults stubType stubOwner).
    apply (set_Current_extends rt cur _ Hcur).
    eapply extends_trans;
      [apply set_StubsMapped_extends | apply WriteLine_extends].
  - unfold LogImageLoad.
    destruct (s_Current rt) as [cur|] eqn:Hcur; [|apply rt_extends_refl].
    pose proof (LogImage_extends cur pFile) as Hext.
    destruct (LogImage B cur pFile) as [cur'|cur'];
      apply (set_Current_extends rt cur _ Hcur), Hext.
Qed.

Lemma log_events_extends (evs : list Event) :
  forall rt, rt_extends rt (final_state (log_events B rt evs)).
Proof.
  induction evs as [|ev evs IH]; intros rt; cbn [log_events].
  - apply rt_extends_refl.
  - pose proof (log_event_extends rt ev) as Hext.
    destruct (log_event B rt ev) as [rt'|rt'].
    + eapply rt_extends_trans; [exact Hext | apply IH].
    + exact Hext.
Qed.

End Extends.

(** X1.  The file of the current map is append-only: after any run of
    logging calls, whatever the platform does with the writes and whether
    the run returns or stops at a fault, the text the file held before is
    the beginning of the text it holds after. *)
Theorem log_events_append_only (B : Build) (rt : Runtime) (evs : list Event) :
  exists suffix,
    current_text (final_state (log_events B rt evs))
    = current_text rt ++ suffix.
Proof.
  destruct (log_events_extends B evs rt) as (Hcur & _).
  unfold current_text.
  destruct (s_Current rt), (s_Current (final_state (log_events B rt evs)));
    try tauto.
  - apply Hcur.
  - exists "". reflexivity.
Qed.

(** X2.  The error flag is never lowered by a logging call: once it is up
    it is up after any run of calls. *)
Theorem log_events_keep_error_flag (B : Build) (rt : Runtime)
    (evs : list Event) :
  current_error rt = true ->
  current_error (final_state (log_events B rt evs)) = true.
Proof.
  destruct (log_events_extends B evs rt) as (Hcur & _).
  unfold current_error.
  destruct (s_Current rt), (s_Current (final_state (log_events B rt evs)));
    try tauto; try discriminate.
  apply Hcur.
Qed.

(** X3.  No logging call opens, closes or swaps the stream, installs or
    drops the current map, or touches the tier switch, the ignored signals
    or what was closed before: a run keeps the path of the current stream
    and those statics. *)
Theorem log_events_keep_stream (B : Build) (rt : Runtime) (evs : list Event) :
  let rt' := final_state (log_events B rt evs) in
  current_path rt' = current_path rt
  /\ s_ShowOptimizationTiers rt' = s_ShowOptimizationTiers rt
  /\ ignored_signals rt' = ignored_signals rt
  /\ closed_streams rt' = closed_streams rt
  /\ closed_infos rt' = closed_infos rt.
Proof.
  cbn zeta.
  destruct (log_events_extends B evs rt) as (Hcur & Hrest).
  split; [|exact Hrest].
  unfold current_path.
  destruct (s_Current rt), (s_Current (final_state (log_events B rt evs)));
    try tauto.
  simpl. f_equal. apply Hcur.
Qed.

(** X2 after a short write on the sample host whose first write comes back
    short. *)
Lemma log_events_keep_error_flag_witness :
  current_error
    (final_state
       (log_events Sample.runtime64
          (LogJITCompiledMethod Sample.runtime64
             (Initialize Sample.flaky (Sample.enabled 0) startup)
             Sample.MF 4096 32 Sample.tier1)
          [StubGenerated (Some "K") (Some "O") 4096 32;
           JitCompiled Sample.MF 8192 16 Sample.tier1]))
  = true.
Proof.
  exact (log_events_keep_error_flag Sample.runtime64
           (LogJITCompiledMethod Sample.runtime64
              (Initialize Sample.flaky (Sample.enabled 0) startup)
              Sample.MF 4096 32 Sample.tier1)
           [StubGenerated (Some "K") (Some "O") 4096 32;
            JitCompiled Sample.MF 8192 16 Sample.tier1]
           eq_refl).
Defined.

(** ** One write, whatever the platform takes *)

Section Outcome.

Lemma str_length_app (a b : string) :
  String.length (a ++ b) = (String.length a + String.length b)%nat.
Proof. induction a as [|ch a IH]; simpl; [reflexivity | now rewrite IH]. Qed.

Lemma substring_length (k : nat) (a : string) :
  (k <= String.length a)%nat -> String.length (substring 0 k a) = k.
Proof.
  revert k. induction a as [|ch a IH]; intros [|k] Hk; simpl in *;
    try reflexivity; try lia.
  rewrite IH; [reflexivity | lia].
Qed.

End Outcome.

(** What one [LogMethod] call leaves, for any offer of the platform. *)
Lemma LogMethod_outcome (B : Build) (show : bool) (this : PerfMap)
    (s : CFileStream) (pMethod : MethodDesc) (pCode codeSize : Z)
    (tier : option string) (sig : string) :
  m_FileStream this = Some s ->
  m_ErrorEncountered this = false ->
  GetFullMethodInfo pMethod = Some sig ->
  let line := method_line B show pCode codeSize sig tier in
  let k := match fs_accept s with
           | [] => String.length line
           | offer :: _ => Nat.min offer (String.length line)
           end in
  let after := LogMethod B show this pMethod pCode codeSize tier in
  map_text after = fs_data s ++ substring 0 k line
  /\ String.length (map_text after) = (String.length (fs_data s) + k)%nat
  /\ m_ErrorEncountered after = (k <? String.length line)%nat
  /\ option_map fs_accept (m_FileStream after) = Some (tl (fs_accept s)).
Proof.
  intros Hs He Hsig line k after.
  assert (Hk : (k <= String.length line)%nat)
    by (subst k; destruct (fs_accept s); lia).
  assert (Hafter :
            after
            = let this' :=
                set_FileStream this
                  (Some {| fs_path := fs_path s;
                           fs_data := fs_data s ++ substring 0 k line;
                           fs_accept := tl (fs_accept s) |}) in
              if negb (String.length line =? k)%nat
              then set_ErrorEncountered this' true else this').
  { subst after. unfold LogMethod. rewrite Hs, He, Hsig. simpl.
    unfold WriteLine, CFileStream_Write. rewrite Hs. reflexivity. }
  rewrite Hafter. cbv zeta.
  destruct (Nat.eqb_spec (String.length line) k) as [E|E]; simpl;
    unfold map_text; simpl; rewrite str_length_app, substring_length by lia.
  - rewrite He. repeat split; auto. symmetry. apply Nat.ltb_ge. lia.
  - repeat split; auto. symmetry. apply Nat.ltb_lt. lia.
Qed.

(** X4.  [LogMethod] on an open stream with the flag down and a signature
    that resolves: the file grows by the first [k] bytes of the line, [k]
    being what the platform takes of it (all of it, or the lesser of its
    offer and the length), and the flag is up afterwards exactly when [k]
    is less than the length of the line. *)
Theorem LogMethod_write_outcome (B : Build) (show : bool) (this : PerfMap)
    (s : CFileStream) (pMethod : MethodDesc) (pCode codeSize : Z)
    (tier : option string) (sig : string) :
  m_FileStream this = Some s ->
  m_ErrorEncountered this = false ->
  GetFullMethodInfo pMethod = Some sig ->
  let line := method_line B show pCode codeSize sig tier in
  let k := match fs_accept s with
           | [] => String.length line
           | offer :: _ => Nat.min offer (String.length line)
           end in
  let after := LogMethod B show this pMethod pCode codeSize tier in
  map_text after = fs_data s ++ substring 0 k line
  /\ String.length (map_text after) = (String.length (fs_data s) + k)%nat
  /\ m_ErrorEncountered after = (k <? String.length line)%nat
  /\ option_map fs_accept (m_FileStream after) = Some (tl (fs_accept s)).
Proof. intros Hs He Hsig. now apply LogMethod_outcome. Qed.

(** X4 on a stream that takes three bytes. *)
Lemma LogMethod_write_outcome_witness :
  map_text
    (LogMethod Sample.runtime64 false (PerfMap_pid Sample.flaky 4242)
       Sample.MF 4096 32 None)
  = "100"
  /\ m_ErrorEncountered
       (LogMethod Sample.runtime64 false (PerfMap_pid Sample.flaky 4242)
          Sample.MF 4096 32 None)
     = true.
Proof.
  pose (s := {| fs_path := "/tmp/perf-4242.map"; fs_data := "";
                fs_accept := [3%nat] |}).
  destruct (LogMethod_write_outcome Sample.runtime64 false
              (PerfMap_pid Sample.flaky 4242) s Sample.MF 4096 32 None
              "M.F()" eq_refl eq_refl eq_refl) as (Ht & _ & He & _).
  split; [exact Ht | exact He].
Defined.

(** ** A run on a stream that takes every line *)

Section Trace.

Variable B : Build.

Lemma sound_set_StubsMapped (this : PerfMap) (s : CFileStream) (n : Z) :
  sound this s -> sound (set_StubsMapped this n) s.
Proof. intros (Hs & Ha & He). repeat split; assumption. Qed.

Lemma sound_set_PerfInfo (this : PerfMap) (s : CFileStream)
    (p : option PerfInfo) :
  sound this s -> sound (set_PerfInfo this p) s.
Proof. intros (Hs & Ha & He). repeat split; assumption. Qed.

Lemma log_events_sound (evs : list Event) :
  forall (rt : Runtime) (cur : PerfMap) (s : CFileStream),
    s_Current rt = Some cur ->
    sound cur s ->
    m_PerfInfo cur <> None ->
    returns (log_events B rt evs)
    /\ current_text (final_state (log_events B rt evs))
       = fs_data s
         ++ expected_text B (s_ShowOptimizationTiers rt) (m_StubsMapped cur)
              evs.
Proof.
  induction evs as [|ev evs IH]; intros rt cur s Hcur Hsound Hrec.
  - simpl. split; [exact I|]. unfold current_text. rewrite Hcur.
    now rewrite (sound_text _ _ Hsound), str_app_nil_r.
  - pose proof Hsound as (Hs & Hacc & He).
    assert (Hnext : forall c s',
               sound c s' -> m_PerfInfo c <> None ->
               returns (log_events B (set_Current rt (Some c)) evs)
               /\ current_text
                    (final_state (log_events B (set_Current rt (Some c)) evs))
                  = fs_data s'
                    ++ expected_text B (s_ShowOptimizationTiers rt)
                         (m_StubsMapped c) evs)
      by (intros c s' Hc Hr;
          exact (IH (set_Current rt (Some c)) c s' eq_refl Hc Hr)).
    destruct ev as [pMethod pCode codeSize pConfig
                   | stubType stubOwner pCode codeSize | pFile];
      cbn [log_events log_event expected_text].
    + unfold LogJITCompiledMethod. rewrite Hcur.
      fold (jit_tier B (s_ShowOptimizationTiers rt) pConfig).
      destruct (GetFullMethodInfo pMethod) as [sig|] eqn:Hsig.
      * rewrite (LogMethod_sound B _ cur s pMethod _ _ _ sig Hsound Hsig).
        destruct (Hnext _ _
                    (sound_appended _ _
                       (method_line B (s_ShowOptimizationTiers rt) pCode
                          codeSize sig
                          (jit_tier B (s_ShowOptimizationTiers rt) pConfig))
                       Hsound)
                    Hrec)
          as (Hret & Htext).
        split; [exact Hret|]. rewrite Htext.
        simpl. now rewrite str_app_assoc.
      * assert (Hsame : LogMethod B (s_ShowOptimizationTiers rt) cur pMethod
                          pCode codeSize
                          (jit_tier B (s_ShowOptimizationTiers rt) pConfig)
                        = cur)
          by (unfold LogMethod; now rewrite Hs, He, Hsig).
        rewrite Hsame.
        destruct (Hnext _ _ Hsound Hrec) as (Hret & Htext).
        split; [exact Hret | exact Htext].
    + rewrite (LogStubs_guarded B rt cur) by (assumption || congruence).
      rewrite (WriteLine_sound _ s)
        by now apply sound_set_StubsMapped.
      destruct (Hnext _ _
                  (sound_appended _ _
                     (stub_line B pCode codeSize
                        (Fmt.u32 (m_StubsMapped cur + 1))
                        (fst (stub_defaults stubType stubOwner))
                        (snd (stub_defaults stubType stubOwner)))
                     (sound_set_StubsMapped _ _
                        (Fmt.u32 (m_StubsMapped cur + 1)) Hsound))
                  Hrec)
        as (Hret & Htext).
      split; [exact Hret|]. rewrite Htext.
      simpl. now rewrite str_app_assoc.
    + unfold LogImageLoad, LogImage. rewrite Hcur, Hs, He.
      destruct (m_PerfInfo cur) as [p|] eqn:Hp; [|congruence].
      cbn [is_null orb].
      assert (Hrec' :
                m_PerfInfo
                  (set_PerfInfo cur
                     (Some (PerfInfo_LogImage p pFile
                              (GetNativeImageSignature B pFile))))
                <> None) by discriminate.
      destruct (Hnext _ _ (sound_set_PerfInfo _ _ _ Hsound) Hrec')
        as (Hret & Htext).
      split; [exact Hret | exact Htext].
Qed.

End Trace.

(** X5.  On a current map with a recorder whose stream is open, error-free
    and takes every line whole, a run of logging calls returns and leaves
    in the file, after what it held, one line per method whose signature
    resolves (none for a method whose signature throws), one line per
    stub, numbered on from the counter, and nothing for an image load, in
    call order. *)
Theorem log_events_text (B : Build) (rt : Runtime) (cur : PerfMap)
    (s : CFileStream) (evs : list Event) :
  s_Current rt = Some cur ->
  sound cur s ->
  m_PerfInfo cur <> None ->
  returns (log_events B rt evs)
  /\ current_text (final_state (log_events B rt evs))
     = fs_data s
       ++ expected_text B (s_ShowOptimizationTiers rt) (m_StubsMapped cur) evs.
Proof. intros Hcur Hsound Hrec. now apply log_events_sound. Qed.

(** X5 at a method, a stub, an image, a method that throws and a stub. *)
Lemma log_events_text_witness :
  current_text
    (final_state
       (log_events Sample.runtime64
          (Initialize Sample.host (Sample.enabled 1) startup)
          [JitCompiled Sample.MF 4096 32 Sample.tier1;
           StubGenerated (Some "K") None 8192 16;
           ImageLoaded (GetManifestFile Sample.corelib);
           JitCompiled {| GetFullMethodInfo := None |} 4096 32 Sample.tier1;
           StubGenerated (Some "K") (Some "O") 12288 8]))
  = "1000 20 M.F()[Tier1]" ++ LF
    ++ "2000 10 stub<1> K<?>" ++ LF
    ++ "3000 8 stub<2> K<O>" ++ LF.
Proof.
  pose (s := {| fs_path := "/tmp/perf-4242.map"; fs_data := "";
                fs_accept := [] |}).
  assert (Hsound : sound (PerfMap_pid Sample.host 4242) s)
    by (repeat split; reflexivity).
  assert (Hrec : m_PerfInfo (PerfMap_pid Sample.host 4242) <> None)
    by discriminate.
  exact (proj2
           (log_events_text Sample.runtime64
              (Initialize Sample.host (Sample.enabled 1) startup)
              (PerfMap_pid Sample.host 4242) s _ eq_refl Hsound Hrec)).
Defined.

(** ** The counter over a run *)

Section Counter.

Variable B : Build.

Lemma extends_stream (a b : PerfMap) :
  extends a b -> m_FileStream a <> None -> m_FileStream b <> None.
Proof.
  intros (Hp & _) Ha Hb. rewrite Hb in Hp.
  destruct (m_FileStream a); [discriminate | congruence].
Qed.

Lemma LogMethod_counter (show : bool) (this : PerfMap) (pMethod : MethodDesc)
    (pCode codeSize : Z) (tier : option string) :
  m_StubsMapped (LogMethod B show this pMethod pCode codeSize tier)
  = m_StubsMapped this.
Proof.
  unfold LogMethod.
  destruct (is_null (m_FileStream this) || m_ErrorEncountered this);
    [reflexivity|].
  destruct (GetFullMethodInfo pMethod); [apply WriteLine_counter | reflexivity].
Qed.

Lemma u32_add_l (a b : Z) : Fmt.u32 (Fmt.u32 a + b) = Fmt.u32 (a + b).
Proof. unfold Fmt.u32. now rewrite Zplus_mod_idemp_l. Qed.

Lemma WriteLine_recorder (this : PerfMap) (line : string) :
  m_PerfInfo (WriteLine this line) = m_PerfInfo this.
Proof.
  unfold WriteLine, CFileStream_Write.
  destruct (m_FileStream this) as [s|]; simpl; [|reflexivity].
  destruct (negb (_ =? _)%nat); reflexivity.
Qed.

Lemma LogMethod_recorder (show : bool) (this : PerfMap) (pMethod : MethodDesc)
    (pCode codeSize : Z) (tier : option string) :
  m_PerfInfo (LogMethod B show this pMethod pCode codeSize tier)
  = m_PerfInfo this.
Proof.
  unfold LogMethod.
  destruct (is_null (m_FileStream this) || m_ErrorEncountered this);
    [reflexivity|].
  destruct (GetFullMethodInfo pMethod); [apply WriteLine_recorder | reflexivity].
Qed.

(** With a recorder [LogImage] returns, and keeps a recorder. *)
Lemma LogImage_returns (this : PerfMap) (pFile : PEFile) :
  m_PerfInfo this <> None ->
  exists this',
    LogImage B this pFile = Returns this'
    /\ m_PerfInfo this' <> None
    /\ m_FileStream this' = m_FileStream this
    /\ m_StubsMapped this' = m_StubsMapped this.
Proof.
  intros Hrec. unfold LogImage.
  destruct (is_null (m_FileStream this) || m_ErrorEncountered this).
  - exists this. repeat split; auto.
  - destruct (m_PerfInfo this) as [p|]; [|congruence].
    eexists. split; [reflexivity|]. repeat split. discriminate.
Qed.

Lemma log_events_counter (evs : list Event) :
  forall (rt : Runtime) (cur : PerfMap),
    s_Current rt = Some cur ->
    m_FileStream cur <> None ->
    m_PerfInfo cur <> None ->
    0 <= m_StubsMapped cur < 2 ^ 32 ->
    returns (log_events B rt evs)
    /\ stub_counter (final_state (log_events B rt evs))
       = Fmt.u32 (m_StubsMapped cur + count_stubs evs).
Proof.
  induction evs as [|ev evs IH]; intros rt cur Hcur Hs Hrec Hrange.
  - simpl. split; [exact I|]. unfold stub_counter. rewrite Hcur, Z.add_0_r.
    symmetry. now apply u32_small.
  - assert (Hnext : forall c k,
               m_FileStream c <> None -> m_PerfInfo c <> None ->
               0 <= m_StubsMapped c < 2 ^ 32 ->
               Fmt.u32 (m_StubsMapped c + count_stubs evs)
               = Fmt.u32 (m_StubsMapped cur + k) ->
               returns (log_events B (set_Current rt (Some c)) evs)
               /\ stub_counter
                    (final_state (log_events B (set_Current rt (Some c)) evs))
                  = Fmt.u32 (m_StubsMapped cur + k)).
    { intros c k Hc Hr Hn Hk.
      destruct (IH (set_Current rt (Some c)) c eq_refl Hc Hr Hn)
        as (Hret & Hcount).
      split; [exact Hret | now rewrite Hcount]. }
    destruct ev as [pMethod pCode codeSize pConfig
                   | stubType stubOwner pCode codeSize | pFile];
      cbn [log_events log_event count_stubs].
    + unfold LogJITCompiledMethod. rewrite Hcur. apply Hnext.
      * eapply extends_stream; [apply LogMethod_extends | exact Hs].
      * now rewrite LogMethod_recorder.
      * now rewrite LogMethod_counter.
      * now rewrite LogMethod_counter.
    + rewrite (LogStubs_guarded B rt cur) by assumption. apply Hnext.
      * eapply extends_stream; [apply WriteLine_extends | exact Hs].
      * now rewrite WriteLine_recorder.
      * rewrite WriteLine_counter. cbn [m_StubsMapped set_StubsMapped].
        apply u32_range.
      * rewrite WriteLine_counter. cbn [m_StubsMapped set_StubsMapped].
        rewrite u32_add_l. f_equal. lia.
    + unfold LogImageLoad. rewrite Hcur.
      destruct (LogImage_returns cur pFile Hrec)
        as (cur' & -> & Hrec' & Hf & Hn).
      apply Hnext.
      * now rewrite Hf.
      * exact Hrec'.
      * now rewrite Hn.
      * now rewrite Hn.
Qed.

Lemma silent_run (rt : Runtime) (evs : list Event) :
  silent B rt -> log_events B rt evs = Returns rt.
Proof.
  intros (Hjit & Hstub & Himg).
  induction evs as [|ev evs IH]; [reflexivity|].
  cbn [log_events].
  destruct ev; cbn [log_event]; rewrite ?Hjit, ?Hstub, ?Himg; exact IH.
Qed.

End Counter.

(** X6.  On a current map with a stream and a recorder, a run of logging
    calls returns, and the stub counter after it is the counter before
    plus the number of [LogStubs] calls in the run, modulo [2 ^ 32]:
    methods and image loads do not move it, and a stub moves it whether or
    not its line could be written. *)
Theorem stub_counter_counts_calls (B : Build) (rt : Runtime) (cur : PerfMap)
    (evs : list Event) :
  s_Current rt = Some cur ->
  m_FileStream cur <> None ->
  m_PerfInfo cur <> None ->
  0 <= m_StubsMapped cur < 2 ^ 32 ->
  returns (log_events B rt evs)
  /\ stub_counter (final_state (log_events B rt evs))
     = Fmt.u32 (m_StubsMapped cur + count_stubs evs).
Proof. intros. now apply log_events_counter. Qed.

(** X6 on the host whose first write comes back short: two stubs among
    four calls. *)
Lemma stub_counter_counts_calls_witness :
  stub_counter
    (final_state
       (log_events Sample.runtime64
          (Initialize Sample.flaky (Sample.enabled 0) startup)
          [JitCompiled Sample.MF 4096 32 Sample.tier1;
           StubGenerated None None 4096 32;
           ImageLoaded (GetManifestFile Sample.corelib);
           StubGenerated (Some "K") (Some "O") 8192 16]))
  = 2.
Proof.
  assert (Hs : m_FileStream (PerfMap_pid Sample.flaky 4242) <> None)
    by discriminate.
  assert (Hrec : m_PerfInfo (PerfMap_pid Sample.flaky 4242) <> None)
    by discriminate.
  assert (Hr : 0 <= m_StubsMapped (PerfMap_pid Sample.flaky 4242) < 2 ^ 32)
    by (simpl; lia).
  exact (proj2
           (stub_counter_counts_calls Sample.runtime64
              (Initialize Sample.flaky (Sample.enabled 0) startup)
              (PerfMap_pid Sample.flaky 4242) _ eq_refl Hs Hrec Hr)).
Defined.

(** X7.  A current map without a stream is out of use for good: any run of
    logging calls returns the runtime it was given, file, flag, recorder
    and stub counter included. *)
Theorem log_events_on_closed_map (B : Build) (rt : Runtime) (cur : PerfMap)
    (evs : list Event) :
  s_Current rt = Some cur ->
  m_FileStream cur = None ->
  log_events B rt evs = Returns rt.
Proof.
  intros Hcur Hs. apply silent_run.
  now apply (closed_map_silent B rt cur).
Qed.

(** X7 on the host that cannot create the file. *)
Lemma log_events_on_closed_map_witness :
  log_events Sample.runtime64
    (Initialize Sample.no_file (Sample.enabled 1) startup)
    [JitCompiled Sample.MF 4096 32 Sample.tier1;
     StubGenerated (Some "K") (Some "O") 8192 16;
     ImageLoaded (GetManifestFile Sample.corelib)]
  = Returns (Initialize Sample.no_file (Sample.enabled 1) startup).
Proof.
  exact (log_events_on_closed_map Sample.runtime64
           (Initialize Sample.no_file (Sample.enabled 1) startup)
           (PerfMap_pid Sample.no_file 4242) _ eq_refl eq_refl).
Defined.

(** ** The lifecycle *)

Section Lifecycle.

Variable B : Build.

Lemma call_keeps_tiers (rt : Runtime) (c : Call) :
  s_ShowOptimizationTiers rt = true ->
  s_ShowOptimizationTiers (final_state (call B rt c)) = true.
Proof.
  intros Hshow. destruct c as [H cfg | | ev]; simpl.
  - unfold Initialize.
    destruct (negb (EXTERNAL_PerfMapEnabled cfg =? 0)); [simpl | exact Hshow].
    destruct (negb (EXTERNAL_PerfMapShowOptimizationTiers cfg =? 0));
      [reflexivity | exact Hshow].
  - unfold Destroy. destruct (s_Current rt); exact Hshow.
  - destruct (log_event_extends B rt ev) as (_ & Hs & _). now rewrite Hs.
Qed.

End Lifecycle.

(** X8.  [s_ShowOptimizationTiers] is only ever set: once it is on, it is
    on after any sequence of [Initialize], [Destroy] and logging calls,
    also when the map is initialized again with the setting at zero, and
    whether the sequence returns or stops at a fault. *)
Theorem tier_display_stays_on (B : Build) (rt : Runtime) (cs : list Call) :
  s_ShowOptimizationTiers rt = true ->
  s_ShowOptimizationTiers (final_state (calls B rt cs)) = true.
Proof.
  revert rt. induction cs as [|c cs IH]; intros rt Hshow; [exact Hshow|].
  cbn [calls].
  pose proof (call_keeps_tiers B rt c Hshow) as Hstep.
  destruct (call B rt c) as [rt'|rt']; [now apply IH | exact Hstep].
Qed.

(** X8: on, destroyed, initialized again with the setting off. *)
Lemma tier_display_stays_on_witness :
  s_ShowOptimizationTiers
    (final_state
       (calls Sample.runtime64
          (Initialize Sample.host (Sample.enabled 1) startup)
          [CallDestroy; CallInitialize Sample.host (Sample.enabled 0)]))
  = true.
Proof.
  exact (tier_display_stays_on Sample.runtime64
           (Initialize Sample.host (Sample.enabled 1) startup)
           [CallDestroy; CallInitialize Sample.host (Sample.enabled 0)]
           eq_refl).
Defined.

(** The text of an [int] is the text of the [int] it converts to. *)
Lemma d_i32 (v : Z) : Fmt.d (Fmt.i32 v) = Fmt.d v.
Proof.
  assert (Hidem : Fmt.i32 (Fmt.i32 v) = Fmt.i32 v).
  { pose proof (u32_range v) as Hr. unfold Fmt.i32 at 2.
    destruct (Z.ltb_spec (Fmt.u32 v) (2 ^ 31)) as [Hlt | Hge].
    - unfold Fmt.i32. rewrite (u32_small (Fmt.u32 v)) by lia.
      destruct (Z.ltb_spec (Fmt.u32 v) (2 ^ 31)); [reflexivity | lia].
    - unfold Fmt.i32.
      assert (Hu : Fmt.u32 (Fmt.u32 v - 2 ^ 32) = Fmt.u32 v).
      { unfold Fmt.u32 at 1. symmetry.
        apply Z.mod_unique with (q := -1); lia. }
      rewrite Hu.
      destruct (Z.ltb_spec (Fmt.u32 v) (2 ^ 31)); [lia | reflexivity]. }
  unfold Fmt.d. now rewrite Hidem.
Qed.

(** X9.  With the map enabled, [Initialize] installs a current map also
    when the file cannot be created once the temporary directory is known;
    that map has no stream, and every run of logging calls on it returns
    and changes nothing. *)
Theorem Initialize_without_file_is_silent (B : Build) (H : Host)
    (cfg : CLRConfig) (rt : Runtime) (tempPath : string) (evs : list Event) :
  EXTERNAL_PerfMapEnabled cfg <> 0 ->
  GetTempPathW H = Some tempPath ->
  new_CFileStream H = false
  \/ OpenForWrite H
       (tempPath ++ "perf-" ++ Fmt.d (GetCurrentProcessId H) ++ ".map")
     = None ->
  let rt' := Initialize H cfg rt in
  s_Current rt' = Some (PerfMap_pid H (Fmt.i32 (GetCurrentProcessId H)))
  /\ current_path rt' = Some None
  /\ log_events B rt' evs = Returns rt'.
Proof.
  intros Hen Htmp Hfail rt'.
  assert (Hcur : s_Current rt'
                 = Some (PerfMap_pid H (Fmt.i32 (GetCurrentProcessId H)))).
  { subst rt'. unfold Initialize.
    destruct (Z.eqb_spec (EXTERNAL_PerfMapEnabled cfg) 0); [contradiction|].
    reflexivity. }
  rewrite <- d_i32 in Hfail.
  pose proof (PerfMap_pid_open_failed H _ tempPath Htmp Hfail) as Hnone.
  split; [exact Hcur|]. split.
  - unfold current_path. rewrite Hcur. simpl. now rewrite Hnone.
  - apply silent_run.
    now apply (closed_map_silent B rt'
                 (PerfMap_pid H (Fmt.i32 (GetCurrentProcessId H)))).
Qed.

(** X9 on the host that cannot create the file. *)
Lemma Initialize_without_file_is_silent_witness :
  current_path (Initialize Sample.no_file (Sample.enabled 1) startup)
  = Some None.
Proof.
  assert (Hen : EXTERNAL_PerfMapEnabled (Sample.enabled 1) <> 0)
    by discriminate.
  exact (proj1 (proj2
           (Initialize_without_file_is_silent Sample.runtime64 Sample.no_file
              (Sample.enabled 1) startup "/tmp/" [] Hen eq_refl
              (or_intror eq_refl)))).
Defined.

(** ** Paths *)

Section Paths.

Lemma str_app_inv_head (a b c : string) : a ++ b = a ++ c -> b = c.
Proof.
  induction a as [|ch a IH]; simpl; [auto|]. intros [= E]. auto.
Qed.

Lemma str_app_inv_tail (a b c : string) : a ++ c = b ++ c -> a = b.
Proof.
  revert b. induction a as [|ch a IH]; intros [|ch' b] E; simpl in E.
  - reflexivity.
  - apply (f_equal String.length) in E. simpl in E.
    rewrite str_length_app in E. lia.
  - apply (f_equal String.length) in E. simpl in E.
    rewrite str_length_app in E. lia.
  - injection E as -> E. f_equal. now apply IH.
Qed.

(** Two integers with the same decimal text are equal. *)
Lemma dec_inj (a b : Z) : Fmt.dec a = Fmt.dec b -> a = b.
Proof.
  assert (Hnn : forall z, Z.to_int z <> Decimal.Pos Decimal.Nil
                          /\ Z.to_int z <> Decimal.Neg Decimal.Nil).
  { intros [|p|p]; simpl; split; try discriminate;
      intros [= E]; now apply DecimalPos.Unsigned.to_uint_nonnil in E. }
  intros E. unfold Fmt.dec in E.
  apply (f_equal DecimalString.NilZero.int_of_string) in E.
  rewrite !DecimalString.NilZero.isi in E by apply Hnn.
  injection E as E. now apply DecimalZ.to_int_inj.
Qed.

Lemma i32_small (v : Z) : - 2 ^ 31 <= v < 2 ^ 31 -> Fmt.i32 v = v.
Proof.
  intros Hv. unfold Fmt.i32, Fmt.u32.
  destruct (Z_lt_le_dec v 0) as [Hneg | Hpos].
  - replace (v mod 2 ^ 32) with (v + 2 ^ 32)
      by (apply Z.mod_unique with (q := -1); lia).
    destruct (Z.ltb_spec (v + 2 ^ 32) (2 ^ 31)); lia.
  - rewrite Z.mod_small by lia.
    destruct (Z.ltb_spec v (2 ^ 31)); lia.
Qed.

Lemma PerfMap_pid_path (H : Host) (pid : Z) (tempPath : string)
    (s : CFileStream) :
  GetTempPathW H = Some tempPath ->
  m_FileStream (PerfMap_pid H pid) = Some s ->
  fs_path s = tempPath ++ "perf-" ++ Fmt.d pid ++ ".map".
Proof.
  intros Htmp. unfold PerfMap_pid, OpenFile. rewrite Htmp.
  destruct (new_CFileStream H); [|discriminate].
  destruct (OpenForWrite H _); [|discriminate].
  simpl. now intros [= <-].
Qed.

End Paths.

(** X10.  The file of a live map is [<temp dir>perf-<pid>.map], the pid in
    decimal; two processes with the same temporary directory write to the
    same file exactly when they have the same process id. *)
Theorem live_map_path_per_process (H1 H2 : Host) (pid1 pid2 : Z)
    (tempPath : string) (s1 s2 : CFileStream) :
  GetTempPathW H1 = Some tempPath ->
  GetTempPathW H2 = Some tempPath ->
  - 2 ^ 31 <= pid1 < 2 ^ 31 ->
  - 2 ^ 31 <= pid2 < 2 ^ 31 ->
  m_FileStream (PerfMap_pid H1 pid1) = Some s1 ->
  m_FileStream (PerfMap_pid H2 pid2) = Some s2 ->
  fs_path s1 = tempPath ++ "perf-" ++ Fmt.dec pid1 ++ ".map"
  /\ (fs_path s1 = fs_path s2 <-> pid1 = pid2).
Proof.
  intros Ht1 Ht2 Hp1 Hp2 Hs1 Hs2.
  rewrite (PerfMap_pid_path H1 pid1 tempPath s1 Ht1 Hs1).
  rewrite (PerfMap_pid_path H2 pid2 tempPath s2 Ht2 Hs2).
  unfold Fmt.d. rewrite !i32_small by assumption.
  split; [reflexivity|]. split.
  - intros E. apply str_app_inv_head in E.
    apply (str_app_inv_head "perf-") in E.
    apply str_app_inv_tail in E. now apply dec_inj.
  - now intros ->.
Qed.

(** X10 at two process ids on hosts with the same temporary directory. *)
Lemma live_map_path_per_process_witness :
  "/tmp/perf-4242.map" = "/tmp/" ++ "perf-" ++ Fmt.dec 4242 ++ ".map"
  /\ ("/tmp/perf-4242.map" = "/tmp/perf-4243.map" <-> 4242 = 4243).
Proof.
  assert (Hp1 : - 2 ^ 31 <= 4242 < 2 ^ 31) by lia.
  assert (Hp2 : - 2 ^ 31 <= 4243 < 2 ^ 31) by lia.
  exact (live_map_path_per_process Sample.host Sample.flaky 4242 4243
           "/tmp/"
           {| fs_path := "/tmp/perf-4242.map"; fs_data := "";
              fs_accept := [] |}
           {| fs_path := "/tmp/perf-4243.map"; fs_data := "";
              fs_accept := [3%nat] |}
           eq_refl eq_refl Hp1 Hp2 eq_refl eq_refl).
Defined.

(** X11.  For one destination directory and one simple name, assemblies
    with different image signatures get different map paths. *)
Theorem NativeImagePerfMap_paths_differ (B : Build) (a1 a2 : Assembly)
    (pDestPath : string) :
  GetSimpleName a1 = GetSimpleName a2 ->
  GetNativeImageSignature B (GetManifestFile a1)
  <> GetNativeImageSignature B (GetManifestFile a2) ->
  sDestPerfMapPath B a1 pDestPath <> sDestPerfMapPath B a2 pDestPath.
Proof.
  intros Hname Hsig E. apply Hsig. unfold sDestPerfMapPath in E.
  rewrite Hname in E.
  apply str_app_inv_head, str_app_inv_head in E.
  apply (str_app_inv_head ".ni.") in E.
  now apply str_app_inv_tail in E.
Qed.

(** X11 at two builds of the sample assembly with different MVIDs. *)
Lemma NativeImagePerfMap_paths_differ_witness :
  sDestPerfMapPath Sample.crossgen64 Sample.corelib "/out/"
  <> sDestPerfMapPath Sample.crossgen64
       {| GetSimpleName := "mscorlib";
          GetManifestFile := {| pe_path := "/lib/mscorlib.dll";
                                GetMVID := 2749 |} |}
       "/out/".
Proof.
  apply (NativeImagePerfMap_paths_differ Sample.crossgen64 Sample.corelib
           {| GetSimpleName := "mscorlib";
              GetManifestFile := {| pe_path := "/lib/mscorlib.dll";
                                    GetMVID := 2749 |} |}
           "/out/" eq_refl).
  discriminate.
Defined.

(** ** More on the pass over a precompiled image *)

Section Pass.

Variable B : Build.
Variable show : bool.
Variable codeInfo : Z -> MethodRegionInfo.
Variable baseAddr : Z.
Variable tier : option string.

Lemma LogPreCompiledMethod_unresolved (this : PerfMap) (pMethod : MethodDesc)
    (pCode : Z) :
  GetFullMethodInfo pMethod = None ->
  LogPreCompiledMethod B show codeInfo this pMethod pCode baseAddr tier = this.
Proof.
  intros Hsig.
  assert (Hlog : forall this' p n,
             LogMethod B show this' pMethod p n tier = this').
  { intros this' p n. unfold LogMethod. rewrite Hsig.
    now destruct (is_null (m_FileStream this') || m_ErrorEncountered this'). }
  unfold LogPreCompiledMethod.
  destruct (0 <? hotSize _); destruct (0 <? coldSize _);
    now rewrite ?Hlog.
Qed.

Lemma log_methods_resolved (mi : list (MethodDesc * Z)) :
  forall (this : PerfMap) (s : CFileStream),
    sound this s ->
    exists s',
      sound (log_methods B show codeInfo baseAddr tier mi this) s'
      /\ fs_data s'
         = fs_data s
           ++ lines_text
                (map (render B show)
                   (flat_map (logged_entries B codeInfo baseAddr tier)
                      (resolved mi))).
Proof.
  induction mi as [|m mi IH]; intros this s Hsound.
  - exists s. split; [assumption | simpl; now rewrite str_app_nil_r].
  - cbn [log_methods fold_left resolved filter].
    change (fold_left ?f mi ?t)
      with (log_methods B show codeInfo baseAddr tier mi t).
    fold (resolved mi).
    destruct (GetFullMethodInfo (fst m)) as [sig|] eqn:Hsig; simpl.
    + destruct (LogPreCompiledMethod_sound B show codeInfo baseAddr tier
                  this s m Hsound) as (s1 & Hsound1 & Hdata1);
        [congruence|].
      destruct (IH _ s1 Hsound1) as (s2 & Hsound2 & Hdata2).
      exists s2. split; [exact Hsound2|].
      rewrite Hdata2, Hdata1.
      now rewrite map_app, lines_text_app, str_app_assoc.
    + rewrite LogPreCompiledMethod_unresolved by assumption.
      now apply IH.
Qed.

Lemma LogPreCompiledMethod_out_of_use (this : PerfMap) (pMethod : MethodDesc)
    (pCode : Z) :
  m_FileStream this = None \/ m_ErrorEncountered this = true ->
  LogPreCompiledMethod B show codeInfo this pMethod pCode baseAddr tier = this.
Proof.
  intros Hout.
  assert (Hlog : forall p n, LogMethod B show this pMethod p n tier = this).
  { intros p n. destruct Hout;
      [now apply LogMethod_closed | now apply LogMethod_latched]. }
  unfold LogPreCompiledMethod.
  destruct (0 <? hotSize _); destruct (0 <? coldSize _);
    now rewrite ?Hlog.
Qed.

Lemma log_methods_out_of_use (mi : list (MethodDesc * Z)) (this : PerfMap) :
  m_FileStream this = None \/ m_ErrorEncountered this = true ->
  log_methods B show codeInfo baseAddr tier mi this = this.
Proof.
  intros Hout. induction mi as [|m mi IH]; [reflexivity|].
  cbn [log_methods fold_left].
  rewrite LogPreCompiledMethod_out_of_use by assumption. exact IH.
Qed.

Lemma log_methods_extends (mi : list (MethodDesc * Z)) :
  forall this,
    let this' := log_methods B show codeInfo baseAddr tier mi this in
    extends this this'
    /\ m_StubsMapped this' = m_StubsMapped this
    /\ m_PerfInfo this' = m_PerfInfo this.
Proof.
  induction mi as [|m mi IH]; intros this; cbn zeta.
  - split; [apply extends_refl | split; reflexivity].
  - cbn [log_methods fold_left].
    change (fold_left ?f mi ?t)
      with (log_methods B show codeInfo baseAddr tier mi t).
    set (this1 := LogPreCompiledMethod B show codeInfo this (fst m) (snd m)
                    baseAddr tier).
    assert (H1 : extends this this1
                 /\ m_StubsMapped this1 = m_StubsMapped this
                 /\ m_PerfInfo this1 = m_PerfInfo this).
    { unfold this1, LogPreCompiledMethod.
      destruct (0 <? hotSize _); destruct (0 <? coldSize _).
      - rewrite !LogMethod_counter, !LogMethod_recorder.
        split; [|split; reflexivity].
        eapply extends_trans; apply LogMethod_extends.
      - rewrite LogMethod_counter, LogMethod_recorder.
        split; [apply LogMethod_extends | split; reflexivity].
      - rewrite LogMethod_counter, LogMethod_recorder.
        split; [apply LogMethod_extends | split; reflexivity].
      - split; [apply extends_refl | split; reflexivity]. }
    destruct H1 as (He1 & Hn1 & Hp1).
    destruct (IH this1) as (He2 & Hn2 & Hp2).
    split; [eapply extends_trans; eassumption|].
    split; congruence.
Qed.

End Pass.

(** X12.  A method whose signature throws is skipped and the pass goes on:
    on an open stream that takes every line whole, [LogDataForModule] adds
    to the file exactly the lines of the entries of the methods whose
    signature resolves, in iterator order. *)
Theorem LogDataForModule_skips_unresolved (B : Build) (show : bool)
    (codeInfo : Z -> MethodRegionInfo) (this : PerfMap) (s : CFileStream)
    (pModule : LoadedModule) :
  sound this s ->
  map_text (LogDataForModule B show codeInfo this pModule)
  = fs_data s
    ++ lines_text
         (map (render B show)
            (flat_map
               (logged_entries B codeInfo (GetBase pModule)
                  (image_tier B pModule))
               (resolved (precompiled_methods B pModule)))).
Proof.
  intros Hsound. rewrite LogDataForModule_unfold.
  destruct (log_methods_resolved B show codeInfo (GetBase pModule)
              (image_tier B pModule) (precompiled_methods B pModule)
              this s Hsound) as (s' & Hsound' & Hdata).
  now rewrite (sound_text _ _ Hsound'), Hdata.
Qed.

(** X12 at an image whose first method throws. *)
Lemma LogDataForModule_skips_unresolved_witness :
  map_text
    (LogDataForModule Sample.crossgen64 false Sample.regions
       (NativeImagePerfMap Sample.crossgen64 Sample.host Sample.corelib "/out/")
       {| GetBase := 65536;
          HasReadyToRunHeader := true;
          MethodIterator := [];
          ReadyToRunInfo_MethodIterator :=
            [({| GetFullMethodInfo := None |}, 69632); (Sample.MF, 65792)] |})
  = "00000100 20 M.F()" ++ LF ++ "00000400 8 M.F()" ++ LF.
Proof.
  pose (s := {| fs_path := "/out/mscorlib.ni.{abc}.map"; fs_data := "";
                fs_accept := [] |}).
  assert (Hsound :
            sound (NativeImagePerfMap Sample.crossgen64 Sample.host
                     Sample.corelib "/out/") s)
    by (repeat split; reflexivity).
  exact (LogDataForModule_skips_unresolved Sample.crossgen64 false
           Sample.regions _ s _ Hsound).
Defined.

(** X13.  An offline map whose file could not be created, or whose error
    flag is up, comes back from [LogDataForModule] as it went in, whatever
    the module holds. *)
Theorem LogDataForModule_out_of_use (B : Build) (show : bool)
    (codeInfo : Z -> MethodRegionInfo) (this : PerfMap)
    (pModule : LoadedModule) :
  m_FileStream this = None \/ m_ErrorEncountered this = true ->
  LogDataForModule B show codeInfo this pModule = this.
Proof.
  intros Hout. rewrite LogDataForModule_unfold.
  now apply log_methods_out_of_use.
Qed.

(** X13 on the host that cannot create the file. *)
Lemma LogDataForModule_out_of_use_witness :
  LogDataForModule Sample.crossgen64 true Sample.regions
    (NativeImagePerfMap Sample.crossgen64 Sample.no_file Sample.corelib "/out/")
    Sample.r2r_image
  = NativeImagePerfMap Sample.crossgen64 Sample.no_file Sample.corelib "/out/".
Proof.
  exact (LogDataForModule_out_of_use Sample.crossgen64 true Sample.regions
           (NativeImagePerfMap Sample.crossgen64 Sample.no_file
              Sample.corelib "/out/")
           Sample.r2r_image (or_introl eq_refl)).
Defined.

(** X14.  [LogDataForModule] only appends: whatever the platform does with
    the writes, the map keeps its stream and its path, the text it held is
    the beginning of the text it holds after, the flag is not lowered, and
    the stub counter and the recorder are not touched. *)
Theorem LogDataForModule_append_only (B : Build) (show : bool)
    (codeInfo : Z -> MethodRegionInfo) (this : PerfMap)
    (pModule : LoadedModule) :
  let this' := LogDataForModule B show codeInfo this pModule in
  extends this this'
  /\ m_StubsMapped this' = m_StubsMapped this
  /\ m_PerfInfo this' = m_PerfInfo this.
Proof.
  cbn zeta. rewrite LogDataForModule_unfold. apply log_methods_extends.
Qed.

(** X15.  A short write ends the pass.  When the stream takes fewer bytes
    than the line of the hot region of the first method, the file holds
    those bytes and nothing more after [LogDataForModule] returns, and the
    flag is up: the cold region and all later methods are skipped. *)
Theorem LogDataForModule_stops_at_short_write (B : Build) (show : bool)
    (codeInfo : Z -> MethodRegionInfo) (this : PerfMap) (s : CFileStream)
    (pModule : LoadedModule) (m : MethodDesc * Z) (mi : list (MethodDesc * Z))
    (sig : string) (offer : nat) (rest : list nat) :
  m_FileStream this = Some s ->
  m_ErrorEncountered this = false ->
  fs_accept s = offer :: rest ->
  precompiled_methods B pModule = m :: mi ->
  GetFullMethodInfo (fst m) = Some sig ->
  0 < hotSize (codeInfo (snd m)) ->
  let line :=
    method_line B show
      (ptr_sub B (hotStartAddress (codeInfo (snd m))) (GetBase pModule))
      (hotSize (codeInfo (snd m))) sig (image_tier B pModule) in
  (offer < String.length line)%nat ->
  let this' := LogDataForModule B show codeInfo this pModule in
  map_text this' = fs_data s ++ substring 0 offer line
  /\ m_ErrorEncountered this' = true.
Proof.
  intros Hs He Hacc Hmi Hsig Hhot line Hshort this'.
  subst this'. rewrite LogDataForModule_unfold, Hmi.
  cbn [log_methods fold_left].
  change (fold_left ?f mi ?t)
    with (log_methods B show codeInfo (GetBase pModule)
            (image_tier B pModule) mi t).
  set (hot := LogMethod B show this (fst m)
                (ptr_sub B (hotStartAddress (codeInfo (snd m)))
                   (GetBase pModule))
                (hotSize (codeInfo (snd m))) (image_tier B pModule)).
  destruct (LogMethod_outcome B show this s (fst m)
              (ptr_sub B (hotStartAddress (codeInfo (snd m)))
                 (GetBase pModule))
              (hotSize (codeInfo (snd m))) (image_tier B pModule) sig
              Hs He Hsig) as (Htext & _ & Hflag & _).
  fold line hot in Htext, Hflag. rewrite Hacc in Htext, Hflag.
  rewrite (Nat.min_l offer) in Htext, Hflag by lia.
  assert (Hup : m_ErrorEncountered hot = true)
    by (rewrite Hflag; apply Nat.ltb_lt; exact Hshort).
  assert (Hone : LogPreCompiledMethod B show codeInfo this (fst m) (snd m)
                   (GetBase pModule) (image_tier B pModule) = hot).
  { unfold LogPreCompiledMethod.
    destruct (Z.ltb_spec 0 (hotSize (codeInfo (snd m)))); [|lia].
    fold hot.
    destruct (0 <? coldSize (codeInfo (snd m))); [|reflexivity].
    now apply LogMethod_latched. }
  rewrite Hone, log_methods_out_of_use by (right; exact Hup).
  split; assumption.
Qed.

(** X15 on a stream that takes three bytes and then everything. *)
Lemma LogDataForModule_stops_at_short_write_witness :
  map_text
    (LogDataForModule Sample.crossgen64 true Sample.regions
       (NativeImagePerfMap Sample.crossgen64 Sample.flaky Sample.corelib "/out/")
       Sample.r2r_image)
  = "000".
Proof.
  pose (s := {| fs_path := "/out/mscorlib.ni.{abc}.map"; fs_data := "";
                fs_accept := [3%nat] |}).
  assert (Hhot : 0 < hotSize (Sample.regions (snd (Sample.MF, 65792))))
    by (simpl; lia).
  assert (Hshort :
            (3 < String.length
                   (method_line Sample.crossgen64 true
                      (ptr_sub Sample.crossgen64
                         (hotStartAddress (Sample.regions 65792))
                         (GetBase Sample.r2r_image))
                      (hotSize (Sample.regions 65792)) "M.F()"
                      (image_tier Sample.crossgen64 Sample.r2r_image)))%nat)
    by (vm_compute; lia).
  exact (proj1
           (LogDataForModule_stops_at_short_write Sample.crossgen64 true
              Sample.regions
              (NativeImagePerfMap Sample.crossgen64 Sample.flaky
                 Sample.corelib "/out/")
              s Sample.r2r_image (Sample.MF, 65792) [] "M.F()" 3%nat []
              eq_refl eq_refl eq_refl eq_refl eq_refl Hhot Hshort)).
Defined.

(** X16.  With [FEATURE_PREJIT], a module without a ReadyToRun header is
    walked through the method table and logged without a tier: whether the
    tier display is on or off, each line ends right after the signature. *)
Theorem LogDataForModule_legacy_untagged (B : Build) (show : bool)
    (codeInfo : Z -> MethodRegionInfo) (this : PerfMap) (s : CFileStream)
    (pModule : LoadedModule) :
  FEATURE_PREJIT B = true ->
  HasReadyToRunHeader pModule = false ->
  sound this s ->
  map_text (LogDataForModule B show codeInfo this pModule)
  = fs_data s
    ++ lines_text
         (map (fun e =>
                 FMT_CODE_ADDR B (code_address e) ++ " "
                 ++ Fmt.x (code_size e) ++ " " ++ label e ++ LF)
            (flat_map (logged_entries B codeInfo (GetBase pModule) None)
               (resolved (MethodIterator pModule)))).
Proof.
  intros Hprejit Hhdr Hsound.
  rewrite LogDataForModule_unfold.
  destruct (log_methods_resolved B show codeInfo (GetBase pModule)
              (image_tier B pModule) (precompiled_methods B pModule)
              this s Hsound) as (s' & Hsound' & Hdata).
  rewrite (sound_text _ _ Hsound'), Hdata.
  unfold image_tier, precompiled_methods. rewrite Hprejit, Hhdr. simpl.
  do 2 f_equal.
  apply map_ext_Forall'
    with (P := fun e => tier_tag e = None);
    [|apply logged_entries_tier].
  intros e He. unfold render, method_line. rewrite He. now flat_str.
Qed.

(** X16 at a module without header, the tier display on. *)
Lemma LogDataForModule_legacy_untagged_witness :
  map_text
    (LogDataForModule Sample.crossgen64 true Sample.regions
       (NativeImagePerfMap Sample.crossgen64 Sample.host Sample.corelib "/out/")
       {| GetBase := 65536;
          HasReadyToRunHeader := false;
          MethodIterator := [(Sample.MF, 65792)];
          ReadyToRunInfo_MethodIterator := [] |})
  = "00000100 20 M.F()" ++ LF ++ "00000400 8 M.F()" ++ LF.
Proof.
  pose (s := {| fs_path := "/out/mscorlib.ni.{abc}.map"; fs_data := "";
                fs_accept := [] |}).
  assert (Hsound :
            sound (NativeImagePerfMap Sample.crossgen64 Sample.host
                     Sample.corelib "/out/") s)
    by (repeat split; reflexivity).
  exact (LogDataForModule_legacy_untagged Sample.crossgen64 true
           Sample.regions _ s
           {| GetBase := 65536;
              HasReadyToRunHeader := false;
              MethodIterator := [(Sample.MF, 65792)];
              ReadyToRunInfo_MethodIterator := [] |}
           eq_refl eq_refl Hsound).
Defined.

(** ** The tier of a jitted method *)

(** X17.  [LogJITCompiledMethod] on a current map whose stream takes the
    line whole: under [CROSSGEN_COMPILE], or with the tier display off, the
    tier is never asked for and the line ends after the signature; in a
    runtime build with the display on the line carries the tier of the
    configuration in brackets, or none when that is null. *)
Theorem LogJITCompiledMethod_tier (B : Build) (rt : Runtime) (cur : PerfMap)
    (s : CFileStream) (pMethod : MethodDesc) (pCode codeSize : Z)
    (pConfig : PrepareCodeConfig) (sig : string) :
  s_Current rt = Some cur ->
  sound cur s ->
  GetFullMethodInfo pMethod = Some sig ->
  let after :=
    current_text (LogJITCompiledMethod B rt pMethod pCode codeSize pConfig) in
  let body := fs_data s ++ FMT_CODE_ADDR B pCode ++ " " ++ Fmt.x codeSize
              ++ " " ++ sig in
  (CROSSGEN_COMPILE B = true \/ s_ShowOptimizationTiers rt = false ->
   after = body ++ LF)
  /\ (CROSSGEN_COMPILE B = false -> s_ShowOptimizationTiers rt = true ->
      after = body ++ match GetJitOptimizationTierStr pConfig with
                      | Some t => "[" ++ t ++ "]" ++ LF
                      | None => LF
                      end).
Proof.
  intros Hcur Hsound Hsig after body. subst after body.
  unfold LogJITCompiledMethod. rewrite Hcur.
  rewrite (LogMethod_sound B _ cur s pMethod _ _ _ sig Hsound Hsig).
  unfold current_text, map_text, method_line. simpl. split.
  - intros [Hc | Hshow].
    + rewrite Hc. simpl. now flat_str.
    + rewrite Hshow, andb_false_r. now flat_str.
  - intros Hc Hshow. rewrite Hc, Hshow. simpl.
    destruct (GetJitOptimizationTierStr pConfig); now flat_str.
Qed.

(** X17 in a crossgen build with the display on and a tier at hand. *)
Lemma LogJITCompiledMethod_tier_witness :
  current_text
    (LogJITCompiledMethod Sample.crossgen64
       (Initialize Sample.host (Sample.enabled 1) startup)
       Sample.MF 4096 32 Sample.tier1)
  = "00001000 20 M.F()" ++ LF.
Proof.
  pose (s := {| fs_path := "/tmp/perf-4242.map"; fs_data := "";
                fs_accept := [] |}).
  assert (Hsound : sound (PerfMap_pid Sample.host 4242) s)
    by (repeat split; reflexivity).
  exact (proj1
           (LogJITCompiledMethod_tier Sample.crossgen64
              (Initialize Sample.host (Sample.enabled 1) startup)
              (PerfMap_pid Sample.host 4242) s Sample.MF 4096 32 Sample.tier1
              "M.F()" eq_refl Hsound eq_refl)
           (or_introl eq_refl)).
Defined.

(** ** Reading the fields back *)

Section Parse.

Lemma digits_nonempty (d : Hexadecimal.uint) :
  d <> Hexadecimal.Nil ->
  HexadecimalString.NilZero.string_of_uint d
  = HexadecimalString.NilEmpty.string_of_uint d
  /\ HexadecimalString.NilEmpty.string_of_uint d <> "".
Proof. destruct d; intros Hd; try congruence; split; (reflexivity || discriminate). Qed.

Lemma parse_hex_nonempty (s : string) :
  s <> "" ->
  parse_hex s
  = option_map (fun d => Z.of_N (N.of_hex_uint d))
      (HexadecimalString.NilEmpty.uint_of_string s).
Proof. destruct s; [congruence | reflexivity]. Qed.

Lemma hex_nonempty (v : Z) : Fmt.hex v <> "".
Proof.
  unfold Fmt.hex.
  destruct (digits_nonempty _ (to_hex_uint_nonnil (Z.to_N v))) as (-> & Hne).
  exact Hne.
Qed.

Lemma uint_of_string_hex (v : Z) :
  HexadecimalString.NilEmpty.uint_of_string (Fmt.hex v)
  = Some (N.to_hex_uint (Z.to_N v)).
Proof.
  unfold Fmt.hex.
  destruct (digits_nonempty _ (to_hex_uint_nonnil (Z.to_N v))) as (-> & _).
  apply HexadecimalString.NilEmpty.usu.
Qed.

Lemma uint_of_string_zeros (n : nat) (s : string) (d : Hexadecimal.uint) :
  HexadecimalString.NilEmpty.uint_of_string s = Some d ->
  exists d',
    HexadecimalString.NilEmpty.uint_of_string (Fmt.zeros n ++ s) = Some d'
    /\ N.of_hex_uint d' = N.of_hex_uint d.
Proof.
  intros Hs. induction n as [|n (d' & Hd' & Hv)]; simpl.
  - now exists d.
  - exists (Hexadecimal.D0 d'). rewrite Hd'. simpl. now split.
Qed.

Lemma parse_hex_hex (v : Z) : 0 <= v -> parse_hex (Fmt.hex v) = Some v.
Proof.
  intros Hv. rewrite parse_hex_nonempty by apply hex_nonempty.
  rewrite uint_of_string_hex. simpl.
  rewrite HexadecimalN.Unsigned.of_to. f_equal. lia.
Qed.

Lemma parse_hex_x (v : Z) : parse_hex (Fmt.x v) = Some (v mod 2 ^ 32).
Proof. apply parse_hex_hex, (u32_range v). Qed.

Lemma parse_hex_x08 (v : Z) : parse_hex (Fmt.x08 v) = Some (v mod 2 ^ 32).
Proof.
  unfold Fmt.x08. cbv zeta.
  destruct (uint_of_string_zeros (8 - String.length (Fmt.hex (Fmt.u32 v)))
              _ _ (uint_of_string_hex (Fmt.u32 v))) as (d' & Hd' & Hval).
  rewrite parse_hex_nonempty.
  - rewrite Hd'. simpl. rewrite Hval, HexadecimalN.Unsigned.of_to.
    f_equal. pose proof (u32_range v). unfold Fmt.u32 in *. lia.
  - intros E. apply (f_equal String.length) in E.
    rewrite str_length_app in E. simpl in E.
    pose proof (hex_nonempty (Fmt.u32 v)) as Hne.
    destruct (Fmt.hex (Fmt.u32 v)); [congruence | simpl in E; lia].
Qed.

Lemma parse_line_fields (a h r : string) (va vh : Z) :
  no_space a = true -> no_space h = true ->
  parse_hex a = Some va -> parse_hex h = Some vh ->
  parse_line (a ++ String " " (h ++ String " " r)) = Some (va, vh, r).
Proof.
  intros Ha Hh Hva Hvh. unfold parse_line, size_field.
  rewrite (before_space_app a _ Ha), (after_space_app a _ Ha).
  rewrite (before_space_app h _ Hh), (after_space_app h _ Hh).
  now rewrite Hva, Hvh.
Qed.

End Parse.

(** X18.  In a crossgen build a line can be read back: split at its first
    two spaces, a method line gives the address and the code size it was
    built from, both modulo [2 ^ 32], then the signature with its ending;
    a stub line gives them too, then the stub label. *)
Theorem crossgen_line_round_trip (B : Build) (show : bool)
    (pCode codeSize : Z) (sig : string) (tier : option string) (n : Z)
    (stubType stubOwner : option string) :
  CROSSGEN_COMPILE B = true ->
  parse_line (method_line B show pCode codeSize sig tier)
  = Some (pCode mod 2 ^ 32, codeSize mod 2 ^ 32,
          sig ++ match tier, show with
                 | Some t, true => "[" ++ t ++ "]" ++ LF
                 | _, _ => LF
                 end)
  /\ parse_line (stub_line B pCode codeSize n stubType stubOwner)
     = Some (pCode mod 2 ^ 32, codeSize mod 2 ^ 32,
             "stub<" ++ Fmt.d n ++ "> " ++ fmt_s B stubType ++ "<"
             ++ fmt_s B stubOwner ++ ">" ++ LF).
Proof.
  intros Hc.
  assert (Haddr : FMT_CODE_ADDR B pCode = Fmt.x08 pCode)
    by (unfold FMT_CODE_ADDR; now rewrite Hc).
  split.
  - unfold method_line. rewrite Haddr.
    destruct tier as [t|]; [destruct show|]; flat_str;
      apply parse_line_fields;
      [ apply x08_no_space | apply (hex_no_space (Fmt.u32 codeSize))
      | apply parse_hex_x08 | apply parse_hex_x
      | apply x08_no_space | apply (hex_no_space (Fmt.u32 codeSize))
      | apply parse_hex_x08 | apply parse_hex_x
      | apply x08_no_space | apply (hex_no_space (Fmt.u32 codeSize))
      | apply parse_hex_x08 | apply parse_hex_x ].
  - unfold stub_line. rewrite Haddr. flat_str.
    apply parse_line_fields;
      [ apply x08_no_space | apply (hex_no_space (Fmt.u32 codeSize))
      | apply parse_hex_x08 | apply parse_hex_x ].
Qed.

(** X18 at an address and a size above [2 ^ 32]. *)
Lemma crossgen_line_round_trip_witness :
  parse_line
    (method_line Sample.crossgen64 true (2 ^ 32 + 256) (2 ^ 32 + 32) "M.F()"
       (Some "ReadyToRun"))
  = Some (256, 32, "M.F()[ReadyToRun]" ++ LF).
Proof.
  exact (proj1
           (crossgen_line_round_trip Sample.crossgen64 true (2 ^ 32 + 256)
              (2 ^ 32 + 32) "M.F()" (Some "ReadyToRun") 1 None None
              eq_refl)).
Defined.

(** ** A stub with its type *)

(** X19.  When the stub type is supplied and the stream takes the line
    whole, [LogStubs] writes a well-formed line: address, size,
    [stub<n>] with the counter after its increment, the type, and in angle
    brackets the owner, or ["?"] when the owner is null.  The error flag
    plays no part. *)
Theorem LogStubs_with_type (B : Build) (rt : Runtime) (cur : PerfMap)
    (s : CFileStream) (kind : string) (stubOwner : option string)
    (pCode codeSize : Z) :
  s_Current rt = Some cur ->
  m_FileStream cur = Some s ->
  fs_accept s = [] ->
  current_text (LogStubs B rt (Some kind) stubOwner pCode codeSize)
  = fs_data s ++ FMT_CODE_ADDR B pCode ++ " " ++ Fmt.x codeSize ++ " stub<"
    ++ Fmt.d (Fmt.u32 (m_StubsMapped cur + 1)) ++ "> " ++ kind ++ "<"
    ++ match stubOwner with
       | Some owner => owner
       | None => "?"
       end
    ++ ">" ++ LF.
Proof.
  intros Hcur Hs Hacc.
  rewrite (LogStubs_ignores_latch B rt cur s _ _ _ _ Hcur Hs Hacc).
  unfold stub_line, stub_defaults. destruct stubOwner; reflexivity.
Qed.

(** X19 for a stub without owner. *)
Lemma LogStubs_with_type_witness :
  current_text
    (LogStubs Sample.runtime64
       (Initialize Sample.host (Sample.enabled 0) startup)
       (Some "DelegateStub") None 4096 32)
  = "1000 20 stub<1> DelegateStub<?>" ++ LF.
Proof.
  exact (LogStubs_with_type Sample.runtime64
           (Initialize Sample.host (Sample.enabled 0) startup)
           (PerfMap_pid Sample.host 4242)
           {| fs_path := "/tmp/perf-4242.map"; fs_data := "";
              fs_accept := [] |}
           "DelegateStub" None 4096 32 eq_refl eq_refl eq_refl).
Defined.

(** ** After [Destroy] *)

(** X20.  [Destroy] is final and idempotent: a run of logging calls after
    it changes nothing, a second [Destroy] changes nothing either, and the
    stream of the map that was current is closed once, with all it
    holds. *)
Theorem Destroy_is_final (B : Build) (rt : Runtime) (evs : list Event) :
  log_events B (Destroy rt) evs = Returns (Destroy rt)
  /\ Destroy (Destroy rt) = Destroy rt
  /\ forall cur s,
       s_Current rt = Some cur ->
       m_FileStream cur = Some s ->
       closed_streams (Destroy rt) = (closed_streams rt ++ [s])%list.
Proof.
  assert (Hnone : s_Current (Destroy rt) = None).
  { unfold Destroy. destruct (s_Current rt) eqn:E; [reflexivity | exact E]. }
  split; [|split].
  - apply silent_run. repeat split; intros.
    + unfold LogJITCompiledMethod. now rewrite Hnone.
    + unfold LogStubs. now rewrite Hnone.
    + unfold LogImageLoad. now rewrite Hnone.
  - unfold Destroy at 1. now rewrite Hnone.
  - intros cur s Hcur Hs. unfold Destroy. rewrite Hcur. simpl. now rewrite Hs.
Qed.

(** X20 after a stub was logged on the sample host. *)
Lemma Destroy_is_final_witness :
  map fs_data
    (closed_streams
       (Destroy
          (LogStubs Sample.runtime64
             (Initialize Sample.host (Sample.enabled 0) startup)
             (Some "K") (Some "O") 4096 32)))
  = ["1000 20 stub<1> K<O>" ++ LF].
Proof.
  exact (f_equal (map fs_data)
           (proj2 (proj2
              (Destroy_is_final Sample.runtime64
                 (LogStubs Sample.runtime64
                    (Initialize Sample.host (Sample.enabled 0) startup)
                    (Some "K") (Some "O") 4096 32)
                 []))
              _ _ eq_refl eq_refl)).
Defined.

(** ** The width of a crossgen address *)

Section Width.

Lemma digits_length (d : Hexadecimal.uint) :
  String.length (HexadecimalString.NilEmpty.string_of_uint d)
  = Hexadecimal.nb_digits d.
Proof. induction d; simpl; auto. Qed.

Lemma zeros_length (n : nat) : String.length (Fmt.zeros n) = n.
Proof. induction n; simpl; auto. Qed.

Lemma of_hex_uint_acc_bound (d : Hexadecimal.uint) :
  forall acc,
    Z.pos acc * 16 ^ Z.of_nat (Hexadecimal.nb_digits d)
    <= Z.pos (Pos.of_hex_uint_acc d acc).
Proof.
  induction d; intros acc;
    cbn [Pos.of_hex_uint_acc Hexadecimal.nb_digits];
    try (rewrite Z.pow_0_r; lia);
    rewrite Nat2Z.inj_succ, Z.pow_succ_r by lia;
    (eapply Z.le_trans; [|apply IHd]);
    rewrite ?Pos2Z.inj_add, ?Pos2Z.inj_mul;
    pose proof (Z.pow_pos_nonneg 16 (Z.of_nat (Hexadecimal.nb_digits d)));
    nia.
Qed.

Lemma leading_digit_bound (d : Hexadecimal.uint) :
  Hexadecimal.nzhead d = d ->
  d <> Hexadecimal.Nil ->
  16 ^ (Z.of_nat (Hexadecimal.nb_digits d) - 1) <= Z.of_N (N.of_hex_uint d).
Proof.
  intros Hnz Hnn.
  destruct d; try congruence;
    try (cbn [N.of_hex_uint Pos.of_hex_uint Hexadecimal.nb_digits];
         rewrite Nat2Z.inj_succ;
         replace (Z.succ (Z.of_nat (Hexadecimal.nb_digits d)) - 1)
           with (Z.of_nat (Hexadecimal.nb_digits d)) by lia;
         match goal with
         | |- _ <= Z.of_N (N.pos (Pos.of_hex_uint_acc _ ?k)) =>
             pose proof (of_hex_uint_acc_bound d k)
         end;
         pose proof (Z.pow_pos_nonneg 16 (Z.of_nat (Hexadecimal.nb_digits d)));
         simpl Z.of_N; nia).
  exfalso. simpl in Hnz.
  pose proof (HexadecimalFacts.nb_digits_nzhead d) as Hle.
  rewrite Hnz in Hle. simpl in Hle. lia.
Qed.

Lemma hex_length_32 (v : Z) :
  0 <= v < 2 ^ 32 -> (1 <= String.length (Fmt.hex v) <= 8)%nat.
Proof.
  intros Hv. unfold Fmt.hex.
  set (d := N.to_hex_uint (Z.to_N v)).
  destruct (digits_nonempty d (to_hex_uint_nonnil _)) as (-> & Hne).
  rewrite digits_length.
  assert (Hpos : (1 <= Hexadecimal.nb_digits d)%nat).
  { destruct (Hexadecimal.nb_digits d) eqn:E; [|lia].
    apply HexadecimalFacts.nb_digits_0 in E.
    now apply to_hex_uint_nonnil in E. }
  split; [exact Hpos|].
  assert (Hnorm : Hexadecimal.unorm d = d).
  { unfold d. rewrite <- HexadecimalN.Unsigned.to_of.
    now rewrite HexadecimalN.Unsigned.of_to. }
  assert (Hcase : Hexadecimal.nzhead d = Hexadecimal.Nil
                  \/ Hexadecimal.nzhead d <> Hexadecimal.Nil)
    by (destruct (Hexadecimal.nzhead d); (now left) || (right; discriminate)).
  destruct Hcase as [Hnz | Hnz].
  - unfold Hexadecimal.unorm in Hnorm. rewrite Hnz in Hnorm.
    rewrite <- Hnorm. simpl. lia.
  - assert (Hsame : Hexadecimal.nzhead d = d)
      by (rewrite <- Hnorm at 2; symmetry;
          now apply HexadecimalFacts.unorm_nzhead).
    pose proof (leading_digit_bound d Hsame (to_hex_uint_nonnil _)) as Hb.
    unfold d in Hb at 2. rewrite HexadecimalN.Unsigned.of_to in Hb.
    rewrite Z2N.id in Hb by lia.
    destruct (Nat.le_gt_cases (Hexadecimal.nb_digits d) 8) as [Hle|Hgt];
      [exact Hle|].
    exfalso.
    assert (16 ^ 8 <= 16 ^ (Z.of_nat (Hexadecimal.nb_digits d) - 1))
      by (apply Z.pow_le_mono_r; lia).
    change (16 ^ 8) with (2 ^ 32) in *. lia.
Qed.

End Width.

(** X21.  In a crossgen build the address field of every line is exactly
    eight characters wide, whatever the address. *)
Theorem crossgen_address_width (B : Build) (pCode : Z) :
  CROSSGEN_COMPILE B = true ->
  String.length (FMT_CODE_ADDR B pCode) = 8%nat.
Proof.
  intros Hc. unfold FMT_CODE_ADDR. rewrite Hc. unfold Fmt.x08. cbv zeta.
  rewrite str_length_app, zeros_length.
  pose proof (hex_length_32 _ (u32_range pCode)). lia.
Qed.

(** X21 at an address of more than 32 bits. *)
Lemma crossgen_address_width_witness :
  String.length (FMT_CODE_ADDR Sample.crossgen64 (2 ^ 40 + 17)) = 8%nat.
Proof. exact (crossgen_address_width Sample.crossgen64 (2 ^ 40 + 17) eq_refl). Defined.
